(** * spotipy-mcp: the tool operations of [spotify_mcp_server.py]

    Every tool of the server has the same body: build a client from the
    token, make one call on it, return what came back (as it is, under a
    fixed key, or replaced by a placeholder when it is falsy), and turn
    any [Exception] into a one-field error dictionary.  The development
    embeds the Python values that flow through these bodies, the client
    library as an external collaborator, the 63 tools as a table read off
    the source, and one monadic body that runs a table entry. *)

From Stdlib Require Import String Ascii List ZArith Bool Arith Lia.
Set Warnings "-register-all".
Import ListNotations.
Open Scope string_scope.
Open Scope list_scope.

(** ** Python values *)

Module Py.

(** The values that reach a tool: JSON-like data plus tuples.  A float is
    kept as a dyadic number [m * 2^e]; no tool computes with one, and the
    only thing the code asks of any value is its truth value.  NaN and the
    infinities (both truthy) are not represented.  A dictionary is the
    list of its items in insertion order, with string keys. *)
Inductive pyval : Type :=
| PyNone
| PyBool (b : bool)
| PyInt (n : Z)
| PyFloat (m e : Z)
| PyStr (s : string)
| PyList (l : list pyval)
| PyTuple (l : list pyval)
| PyDict (items : list (string * pyval)).

(** Python's truth value testing, as used by [x if x else y]. *)
Definition truthy (v : pyval) : bool :=
  match v with
  | PyNone => false
  | PyBool b => b
  | PyInt n => negb (n =? 0)%Z
  | PyFloat m _ => negb (m =? 0)%Z
  | PyStr s => negb (s =? "")
  | PyList l => negb (Nat.eqb (length l) 0)
  | PyTuple l => negb (Nat.eqb (length l) 0)
  | PyDict items => negb (Nat.eqb (length items) 0)
  end.

(** [type(v).__name__] *)
Definition type_name (v : pyval) : string :=
  match v with
  | PyNone => "NoneType"
  | PyBool _ => "bool"
  | PyInt _ => "int"
  | PyFloat _ _ => "float"
  | PyStr _ => "str"
  | PyList _ => "list"
  | PyTuple _ => "tuple"
  | PyDict _ => "dict"
  end.

Definition is_mapping (v : pyval) : bool :=
  match v with PyDict _ => true | _ => false end.

Fixpoint assoc {A : Type} (k : string) (items : list (string * A)) : option A :=
  match items with
  | [] => None
  | (k', v) :: rest => if k' =? k then Some v else assoc k rest
  end.

(** [k in v] for a dictionary [v]; a value that is not a dictionary has
    no fields. *)
Definition has_field (k : string) (v : pyval) : bool :=
  match v with
  | PyDict items => match assoc k items with Some _ => true | None => false end
  | _ => false
  end.

(** The dictionary display [{k: v}]. *)
Definition single (k : string) (v : pyval) : pyval := PyDict [(k, v)].

(** Number of constructors of a value. *)
Fixpoint size (v : pyval) : nat :=
  match v with
  | PyList l | PyTuple l => S (list_sum (map size l))
  | PyDict items => S (list_sum (map (fun kv => size (snd kv)) items))
  | _ => 1
  end.

(** [s.split(sep)] for a one-character separator: the pieces between the
    occurrences of [sep], empty pieces kept.  Strings are byte strings
    here; a separator below 128 never occurs inside a multi-byte UTF-8
    character, so splitting bytes and splitting code points agree. *)
Fixpoint split (sep : ascii) (s : string) : list string :=
  match s with
  | EmptyString => [EmptyString]
  | String c rest =>
      if Ascii.eqb c sep then EmptyString :: split sep rest
      else match split sep rest with
           | piece :: pieces => String c piece :: pieces
           | [] => [String c EmptyString]
           end
  end.

End Py.
Export Py.

(** ** Exceptions, completions and the runtime *)

(** A raised object is either an instance of [Exception] or one of the
    interpreter's exit signals that derive from [BaseException] only
    ([KeyboardInterrupt], [SystemExit], [GeneratorExit]).  [exc_str] is
    [str(e)]. *)
Inductive exc_class := OrdinaryException | ExitSignal.

Record exn := { exc_kind : exc_class; exc_str : string }.

Definition is_Exception (e : exn) : bool :=
  match exc_kind e with OrdinaryException => true | ExitSignal => false end.

(** How a Python expression or body ends. *)
Inductive completion (A : Type) :=
| Return (a : A)
| Raise (e : exn).
Arguments Return {A} a.
Arguments Raise {A} e.

(** A call on the client library: method name, positional arguments and
    keyword arguments in the order written. *)
Record call := {
  method : string;
  positional : list pyval;
  keywords : list (string * pyval)
}.

(** A client object: its identity and the credential given to
    [spotipy.Spotify(auth=...)]. *)
Record client := { client_id : nat; auth : pyval }.

Inductive event :=
| Constructed (c : client)
| Called (c : client) (m : call).

(** What persists in the server process from one invocation to the next:
    the module's global variables, the object allocator, and (as a ghost
    record) the interactions with the client library so far. *)
Record runtime := {
  module_globals : list (string * pyval);
  next_object : nat;
  trace : list event
}.

Definition log (ev : event) (rt : runtime) : runtime :=
  {| module_globals := module_globals rt;
     next_object := next_object rt;
     trace := trace rt ++ [ev] |}.

(** The external collaborator.  [Spotify_init auth] says whether the
    constructor raises; [respond auth m] is what a call [m] made with
    credential [auth] comes back with.  The remote state does not change
    during the runs considered, so [respond] is a function. *)
Record library := {
  Spotify_init : pyval -> option exn;
  respond : pyval -> call -> completion pyval
}.

(** Computations: state passing over the runtime, with exceptions. *)
Definition M (A : Type) : Type := runtime -> completion A * runtime.

Definition ret {A} (a : A) : M A := fun rt => (Return a, rt).

Definition raise {A} (e : exn) : M A := fun rt => (Raise e, rt).

Definition bind {A B} (m : M A) (k : A -> M B) : M B :=
  fun rt =>
    match m rt with
    | (Return a, rt') => k a rt'
    | (Raise e, rt') => (Raise e, rt')
    end.

Definition lift {A} (c : completion A) : M A := fun rt => (c, rt).

(** [try: body / except Exception as e: handler(e)].  An exit signal is
    not an [Exception] and passes through. *)
Definition try_except {A} (body : M A) (handler : exn -> M A) : M A :=
  fun rt =>
    match body rt with
    | (Return a, rt') => (Return a, rt')
    | (Raise e, rt') => if is_Exception e then handler e rt' else (Raise e, rt')
    end.

Declare Scope py_scope.
Delimit Scope py_scope with py.
Notation "x <- m ;; k" := (bind m (fun x => k))
  (at level 100, m at next level, right associativity) : py_scope.
Open Scope py_scope.

(** [spotipy.Spotify(auth=token)]: a new object on each evaluation. *)
Definition Spotify (L : library) (token : pyval) : M client :=
  fun rt =>
    match Spotify_init L token with
    | Some e => (Raise e, rt)
    | None =>
        let c := {| client_id := next_object rt; auth := token |} in
        (Return c,
         log (Constructed c)
             {| module_globals := module_globals rt;
                next_object := S (next_object rt);
                trace := trace rt |})
    end.

(** [def get_spotify_client(token): return spotipy.Spotify(auth=token)] *)
Definition get_spotify_client (L : library) (token : pyval) : M client :=
  Spotify L token.

(** A method call on a client: the library answers for the credential
    the client was built with. *)
Definition call_method (L : library) (c : client) (m : call) : M pyval :=
  fun rt => (respond L (auth c) m, log (Called c m) rt).

(** ** The tools *)

(** One constructor per function decorated with [@mcp.tool()], in source
    order. *)
Inductive operation : Type :=
| get_album_info | get_album_tracks | get_albums | get_artist_info
| get_artist_albums | get_artist_related_artists | get_artist_top_tracks
| get_artists | get_audio_analysis | get_audio_features
| get_available_markets | get_categories | get_category
| get_category_playlists | get_episode | get_episodes
| get_featured_playlists | get_audiobook | get_audiobook_chapters
| get_audiobooks | get_new_releases | get_playlist_info
| get_playlist_tracks | playlist_cover_image | playlist_is_following
| get_available_genres | get_recommendations | search_tracks
| search_artists | search_albums | search_playlists | get_show
| get_show_episodes | get_shows | get_track_info | get_tracks | get_user
| get_user_playlists | get_current_playback | get_current_user
| get_current_user_followed_artists | check_current_user_following_artists
| check_current_user_following_users | get_current_user_playing_track
| get_current_user_playlists | get_current_user_recently_played
| get_current_user_saved_albums | check_current_user_saved_albums
| get_current_user_saved_episodes | check_current_user_saved_episodes
| get_current_user_saved_shows | check_current_user_saved_shows
| get_current_user_saved_tracks | check_current_user_saved_tracks
| get_current_user_top_artists | get_current_user_top_tracks
| get_currently_playing | get_devices | get_playlist_items | get_queue
| search_general | search_markets | get_user_playlist.

Definition all_operations : list operation :=
  [get_album_info; get_album_tracks; get_albums; get_artist_info;
   get_artist_albums; get_artist_related_artists; get_artist_top_tracks;
   get_artists; get_audio_analysis; get_audio_features;
   get_available_markets; get_categories; get_category;
   get_category_playlists; get_episode; get_episodes;
   get_featured_playlists; get_audiobook; get_audiobook_chapters;
   get_audiobooks; get_new_releases; get_playlist_info; get_playlist_tracks;
   playlist_cover_image; playlist_is_following; get_available_genres;
   get_recommendations; search_tracks; search_artists; search_albums;
   search_playlists; get_show; get_show_episodes; get_shows; get_track_info;
   get_tracks; get_user; get_user_playlists; get_current_playback;
   get_current_user; get_current_user_followed_artists;
   check_current_user_following_artists; check_current_user_following_users;
   get_current_user_playing_track; get_current_user_playlists;
   get_current_user_recently_played; get_current_user_saved_albums;
   check_current_user_saved_albums; get_current_user_saved_episodes;
   check_current_user_saved_episodes; get_current_user_saved_shows;
   check_current_user_saved_shows; get_current_user_saved_tracks;
   check_current_user_saved_tracks; get_current_user_top_artists;
   get_current_user_top_tracks; get_currently_playing; get_devices;
   get_playlist_items; get_queue; search_general; search_markets;
   get_user_playlist].

(** An argument expression of the delegated call. *)
Inductive argexpr :=
| Param (name : string)
  (** a parameter of the tool, read as it is *)
| Const (v : pyval)
  (** a literal written in the call *)
| CommaTuple (name : string) (default : list string)
  (** the local [tuple(name.split(",")) if name else default] *).

(** What the tool returns when the call came back with [result]. *)
Inductive shape :=
| AsIs
  (** [return result] *)
| OrPlaceholder (key : string)
  (** [return result if result else {key: None}] *)
| Wrapped (key : string)
  (** [return {key: result}] *).

(** A tool as written: its parameters after [token] with their defaults
    ([None] for a required one), the client method it calls with the
    positional and keyword argument expressions, the return statement,
    and the text before [str(e)] in the handler's f-string. *)
Record tool := {
  parameters : list (string * option pyval);
  target : string;
  args : list argexpr;
  kwargs : list (string * argexpr);
  returns : shape;
  failure_prefix : string
}.

Definition tool_of (op : operation) : tool :=
  match op with
  | get_album_info =>
      {| parameters :=
           [("album_id", None); ("market", Some (PyNone))];
         target := "album";
         args := [Param "album_id"];
         kwargs :=
           [("market", Param "market")];
         returns := AsIs;
         failure_prefix := "Failed to get album info: " |}
  | get_album_tracks =>
      {| parameters :=
           [("album_id", None); ("limit", Some (PyInt 50));
            ("offset", Some (PyInt 0)); ("market", Some (PyNone))];
         target := "album_tracks";
         args := [Param "album_id"];
         kwargs :=
           [("limit", Param "limit"); ("offset", Param "offset");
            ("market", Param "market")];
         returns := AsIs;
         failure_prefix := "Failed to get album tracks: " |}
  | get_albums =>
      {| parameters :=
           [("albums", None); ("market", Some (PyNone))];
         target := "albums";
         args := [Param "albums"];
         kwargs :=
           [("market", Param "market")];
         returns := AsIs;
         failure_prefix := "Failed to get albums: " |}
  | get_artist_info =>
      {| parameters :=
           [("artist_id", None)];
         target := "artist";
         args := [Param "artist_id"];
         kwargs := [];
         returns := AsIs;
         failure_prefix := "Failed to get artist info: " |}
  | get_artist_albums =>
      {| parameters :=
           [("artist_id", None); ("album_type", Some (PyNone));
            ("include_groups", Some (PyNone)); ("country", Some (PyNone));
            ("limit", Some (PyInt 20)); ("offset", Some (PyInt 0))];
         target := "artist_albums";
         args := [Param "artist_id"];
         kwargs :=
           [("album_type", Param "album_type");
            ("include_groups", Param "include_groups");
            ("country", Param "country"); ("limit", Param "limit");
            ("offset", Param "offset")];
         returns := AsIs;
         failure_prefix := "Failed to get artist albums: " |}
  | get_artist_related_artists =>
      {| parameters :=
           [("artist_id", None)];
         target := "artist_related_artists";
         args := [Param "artist_id"];
         kwargs := [];
         returns := AsIs;
         failure_prefix := "Failed to get related artists: " |}
  | get_artist_top_tracks =>
      {| parameters :=
           [("artist_id", None); ("country", Some (PyStr "US"))];
         target := "artist_top_tracks";
         args := [Param "artist_id"];
         kwargs :=
           [("country", Param "country")];
         returns := AsIs;
         failure_prefix := "Failed to get artist top tracks: " |}
  | get_artists =>
      {| parameters :=
           [("artists", None)];
         target := "artists";
         args := [Param "artists"];
         kwargs := [];
         returns := AsIs;
         failure_prefix := "Failed to get artists: " |}
  | get_audio_analysis =>
      {| parameters :=
           [("track_id", None)];
         target := "audio_analysis";
         args := [Param "track_id"];
         kwargs := [];
         returns := AsIs;
         failure_prefix := "Failed to get audio analysis: " |}
  | get_audio_features =>
      {| parameters :=
           [("tracks", None)];
         target := "audio_features";
         args := [Param "tracks"];
         kwargs := [];
         returns := OrPlaceholder "audio_features";
         failure_prefix := "Failed to get audio features: " |}
  | get_available_markets =>
      {| parameters :=
           [];
         target := "available_markets";
         args := [];
         kwargs := [];
         returns := AsIs;
         failure_prefix := "Failed to get available markets: " |}
  | get_categories =>
      {| parameters :=
           [("country", Some (PyNone)); ("locale", Some (PyNone));
            ("limit", Some (PyInt 20)); ("offset", Some (PyInt 0))];
         target := "categories";
         args := [];
         kwargs :=
           [("country", Param "country"); ("locale", Param "locale");
            ("limit", Param "limit"); ("offset", Param "offset")];
         returns := AsIs;
         failure_prefix := "Failed to get categories: " |}
  | get_category =>
      {| parameters :=
           [("category_id", None); ("country", Some (PyNone));
            ("locale", Some (PyNone))];
         target := "category";
         args := [Param "category_id"];
         kwargs :=
           [("country", Param "country"); ("locale", Param "locale")];
         returns := AsIs;
         failure_prefix := "Failed to get category: " |}
  | get_category_playlists =>
      {| parameters :=
           [("category_id", None); ("country", Some (PyNone));
            ("limit", Some (PyInt 20)); ("offset", Some (PyInt 0))];
         target := "category_playlists";
         args := [Param "category_id"];
         kwargs :=
           [("country", Param "country"); ("limit", Param "limit");
            ("offset", Param "offset")];
         returns := AsIs;
         failure_prefix := "Failed to get category playlists: " |}
  | get_episode =>
      {| parameters :=
           [("episode_id", None); ("market", Some (PyNone))];
         target := "episode";
         args := [Param "episode_id"];
         kwargs :=
           [("market", Param "market")];
         returns := AsIs;
         failure_prefix := "Failed to get episode: " |}
  | get_episodes =>
      {| parameters :=
           [("ids", None); ("market", Some (PyNone))];
         target := "episodes";
         args := [Param "ids"];
         kwargs :=
           [("market", Param "market")];
         returns := AsIs;
         failure_prefix := "Failed to get episodes: " |}
  | get_featured_playlists =>
      {| parameters :=
           [("locale", Some (PyNone)); ("country", Some (PyNone));
            ("timestamp", Some (PyNone)); ("limit", Some (PyInt 20));
            ("offset", Some (PyInt 0))];
         target := "featured_playlists";
         args := [];
         kwargs :=
           [("locale", Param "locale"); ("country", Param "country");
            ("timestamp", Param "timestamp"); ("limit", Param "limit");
            ("offset", Param "offset")];
         returns := AsIs;
         failure_prefix := "Failed to get featured playlists: " |}
  | get_audiobook =>
      {| parameters :=
           [("id", None); ("market", Some (PyNone))];
         target := "get_audiobook";
         args := [Param "id"];
         kwargs :=
           [("market", Param "market")];
         returns := AsIs;
         failure_prefix := "Failed to get audiobook: " |}
  | get_audiobook_chapters =>
      {| parameters :=
           [("id", None); ("market", Some (PyNone));
            ("limit", Some (PyInt 20)); ("offset", Some (PyInt 0))];
         target := "get_audiobook_chapters";
         args := [Param "id"];
         kwargs :=
           [("market", Param "market"); ("limit", Param "limit");
            ("offset", Param "offset")];
         returns := AsIs;
         failure_prefix := "Failed to get audiobook chapters: " |}
  | get_audiobooks =>
      {| parameters :=
           [("ids", None); ("market", Some (PyNone))];
         target := "get_audiobooks";
         args := [Param "ids"];
         kwargs :=
           [("market", Param "market")];
         returns := AsIs;
         failure_prefix := "Failed to get audiobooks: " |}
  | get_new_releases =>
      {| parameters :=
           [("country", Some (PyNone)); ("limit", Some (PyInt 20));
            ("offset", Some (PyInt 0))];
         target := "new_releases";
         args := [];
         kwargs :=
           [("country", Param "country"); ("limit", Param "limit");
            ("offset", Param "offset")];
         returns := AsIs;
         failure_prefix := "Failed to get new releases: " |}
  | get_playlist_info =>
      {| parameters :=
           [("playlist_id", None)];
         target := "playlist";
         args := [Param "playlist_id"];
         kwargs := [];
         returns := AsIs;
         failure_prefix := "Failed to get playlist info: " |}
  | get_playlist_tracks =>
      {| parameters :=
           [("playlist_id", None); ("fields", Some (PyNone));
            ("limit", Some (PyInt 100)); ("offset", Some (PyInt 0));
            ("market", Some (PyNone)); ("additional_types", Some (PyNone))];
         target := "playlist_tracks";
         args := [Param "playlist_id"];
         kwargs :=
           [("fields", Param "fields"); ("limit", Param "limit");
            ("offset", Param "offset"); ("market", Param "market");
            ("additional_types", Param "additional_types")];
         returns := AsIs;
         failure_prefix := "Failed to get playlist tracks: " |}
  | playlist_cover_image =>
      {| parameters :=
           [("playlist_id", None)];
         target := "playlist_cover_image";
         args := [Param "playlist_id"];
         kwargs := [];
         returns := Wrapped "images";
         failure_prefix := "Failed to get playlist cover image: " |}
  | playlist_is_following =>
      {| parameters :=
           [("playlist_id", None); ("user_ids", None)];
         target := "playlist_is_following";
         args := [Param "playlist_id"; Param "user_ids"];
         kwargs := [];
         returns := Wrapped "following";
         failure_prefix := "Failed to check playlist following status: " |}
  | get_available_genres =>
      {| parameters :=
           [];
         target := "recommendation_genre_seeds";
         args := [];
         kwargs := [];
         returns := AsIs;
         failure_prefix := "Failed to get available genres: " |}
  | get_recommendations =>
      {| parameters :=
           [("seed_artists", Some (PyNone)); ("seed_genres", Some (PyNone));
            ("seed_tracks", Some (PyNone)); ("limit", Some (PyInt 20));
            ("market", Some (PyNone)); ("min_acousticness", Some (PyNone));
            ("max_acousticness", Some (PyNone));
            ("target_acousticness", Some (PyNone));
            ("min_danceability", Some (PyNone));
            ("max_danceability", Some (PyNone));
            ("target_danceability", Some (PyNone));
            ("min_duration_ms", Some (PyNone));
            ("max_duration_ms", Some (PyNone));
            ("target_duration_ms", Some (PyNone));
            ("min_energy", Some (PyNone)); ("max_energy", Some (PyNone));
            ("target_energy", Some (PyNone));
            ("min_instrumentalness", Some (PyNone));
            ("max_instrumentalness", Some (PyNone));
            ("target_instrumentalness", Some (PyNone));
            ("min_key", Some (PyNone)); ("max_key", Some (PyNone));
            ("target_key", Some (PyNone)); ("min_liveness", Some (PyNone));
            ("max_liveness", Some (PyNone));
            ("target_liveness", Some (PyNone));
            ("min_loudness", Some (PyNone)); ("max_loudness", Some (PyNone));
            ("target_loudness", Some (PyNone)); ("min_mode", Some (PyNone));
            ("max_mode", Some (PyNone)); ("target_mode", Some (PyNone));
            ("min_popularity", Some (PyNone));
            ("max_popularity", Some (PyNone));
            ("target_popularity", Some (PyNone));
            ("min_speechiness", Some (PyNone));
            ("max_speechiness", Some (PyNone));
            ("target_speechiness", Some (PyNone));
            ("min_tempo", Some (PyNone)); ("max_tempo", Some (PyNone));
            ("target_tempo", Some (PyNone));
            ("min_time_signature", Some (PyNone));
            ("max_time_signature", Some (PyNone));
            ("target_time_signature", Some (PyNone));
            ("min_valence", Some (PyNone)); ("max_valence", Some (PyNone));
            ("target_valence", Some (PyNone))];
         target := "recommendations";
         args := [];
         kwargs :=
           [("seed_artists", Param "seed_artists");
            ("seed_genres", Param "seed_genres");
            ("seed_tracks", Param "seed_tracks"); ("limit", Param "limit");
            ("market", Param "market");
            ("min_acousticness", Param "min_acousticness");
            ("max_acousticness", Param "max_acousticness");
            ("target_acousticness", Param "target_acousticness");
            ("min_danceability", Param "min_danceability");
            ("max_danceability", Param "max_danceability");
            ("target_danceability", Param "target_danceability");
            ("min_duration_ms", Param "min_duration_ms");
            ("max_duration_ms", Param "max_duration_ms");
            ("target_duration_ms", Param "target_duration_ms");
            ("min_energy", Param "min_energy");
            ("max_energy", Param "max_energy");
            ("target_energy", Param "target_energy");
            ("min_instrumentalness", Param "min_instrumentalness");
            ("max_instrumentalness", Param "max_instrumentalness");
            ("target_instrumentalness", Param "target_instrumentalness");
            ("min_key", Param "min_key"); ("max_key", Param "max_key");
            ("target_key", Param "target_key");
            ("min_liveness", Param "min_liveness");
            ("max_liveness", Param "max_liveness");
            ("target_liveness", Param "target_liveness");
            ("min_loudness", Param "min_loudness");
            ("max_loudness", Param "max_loudness");
            ("target_loudness", Param "target_loudness");
            ("min_mode", Param "min_mode"); ("max_mode", Param "max_mode");
            ("target_mode", Param "target_mode");
            ("min_popularity", Param "min_popularity");
            ("max_popularity", Param "max_popularity");
            ("target_popularity", Param "target_popularity");
            ("min_speechiness", Param "min_speechiness");
            ("max_speechiness", Param "max_speechiness");
            ("target_speechiness", Param "target_speechiness");
            ("min_tempo", Param "min_tempo"); ("max_tempo", Param "max_tempo");
            ("target_tempo", Param "target_tempo");
            ("min_time_signature", Param "min_time_signature");
            ("max_time_signature", Param "max_time_signature");
            ("target_time_signature", Param "target_time_signature");
            ("min_valence", Param "min_valence");
            ("max_valence", Param "max_valence");
            ("target_valence", Param "target_valence")];
         returns := AsIs;
         failure_prefix := "Failed to get recommendations: " |}
  | search_tracks =>
      {| parameters :=
           [("query", None); ("limit", Some (PyInt 10));
            ("offset", Some (PyInt 0))];
         target := "search";
         args := [];
         kwargs :=
           [("q", Param "query"); ("type", Const (PyStr "track"));
            ("limit", Param "limit"); ("offset", Param "offset")];
         returns := AsIs;
         failure_prefix := "Track search failed: " |}
  | search_artists =>
      {| parameters :=
           [("query", None); ("limit", Some (PyInt 10));
            ("offset", Some (PyInt 0))];
         target := "search";
         args := [];
         kwargs :=
           [("q", Param "query"); ("type", Const (PyStr "artist"));
            ("limit", Param "limit"); ("offset", Param "offset")];
         returns := AsIs;
         failure_prefix := "Artist search failed: " |}
  | search_albums =>
      {| parameters :=
           [("query", None); ("limit", Some (PyInt 10));
            ("offset", Some (PyInt 0))];
         target := "search";
         args := [];
         kwargs :=
           [("q", Param "query"); ("type", Const (PyStr "album"));
            ("limit", Param "limit"); ("offset", Param "offset")];
         returns := AsIs;
         failure_prefix := "Album search failed: " |}
  | search_playlists =>
      {| parameters :=
           [("query", None); ("limit", Some (PyInt 10));
            ("offset", Some (PyInt 0))];
         target := "search";
         args := [];
         kwargs :=
           [("q", Param "query"); ("type", Const (PyStr "playlist"));
            ("limit", Param "limit"); ("offset", Param "offset")];
         returns := AsIs;
         failure_prefix := "Playlist search failed: " |}
  | get_show =>
      {| parameters :=
           [("show_id", None); ("market", Some (PyNone))];
         target := "show";
         args := [Param "show_id"];
         kwargs :=
           [("market", Param "market")];
         returns := AsIs;
         failure_prefix := "Failed to get show: " |}
  | get_show_episodes =>
      {| parameters :=
           [("show_id", None); ("limit", Some (PyInt 50));
            ("offset", Some (PyInt 0)); ("market", Some (PyNone))];
         target := "show_episodes";
         args := [Param "show_id"];
         kwargs :=
           [("limit", Param "limit"); ("offset", Param "offset");
            ("market", Param "market")];
         returns := AsIs;
         failure_prefix := "Failed to get show episodes: " |}
  | get_shows =>
      {| parameters :=
           [("ids", None); ("market", Some (PyNone))];
         target := "shows";
         args := [Param "ids"];
         kwargs :=
           [("market", Param "market")];
         returns := AsIs;
         failure_prefix := "Failed to get shows: " |}
  | get_track_info =>
      {| parameters :=
           [("track_id", None)];
         target := "track";
         args := [Param "track_id"];
         kwargs := [];
         returns := AsIs;
         failure_prefix := "Failed to get track info: " |}
  | get_tracks =>
      {| parameters :=
           [("ids", None); ("market", Some (PyNone))];
         target := "tracks";
         args := [Param "ids"];
         kwargs :=
           [("market", Param "market")];
         returns := AsIs;
         failure_prefix := "Failed to get tracks: " |}
  | get_user =>
      {| parameters :=
           [("user_id", None)];
         target := "user";
         args := [Param "user_id"];
         kwargs := [];
         returns := AsIs;
         failure_prefix := "Failed to get user: " |}
  | get_user_playlists =>
      {| parameters :=
           [("user_id", None); ("limit", Some (PyInt 50));
            ("offset", Some (PyInt 0))];
         target := "user_playlists";
         args := [Param "user_id"];
         kwargs :=
           [("limit", Param "limit"); ("offset", Param "offset")];
         returns := AsIs;
         failure_prefix := "Failed to get user playlists: " |}
  | get_current_playback =>
      {| parameters :=
           [("market", Some (PyNone)); ("additional_types", Some (PyNone))];
         target := "current_playback";
         args := [];
         kwargs :=
           [("market", Param "market");
            ("additional_types", Param "additional_types")];
         returns := OrPlaceholder "playback";
         failure_prefix := "Failed to get current playback: " |}
  | get_current_user =>
      {| parameters :=
           [];
         target := "current_user";
         args := [];
         kwargs := [];
         returns := AsIs;
         failure_prefix := "Failed to get current user: " |}
  | get_current_user_followed_artists =>
      {| parameters :=
           [("limit", Some (PyInt 20)); ("after", Some (PyNone))];
         target := "current_user_followed_artists";
         args := [];
         kwargs :=
           [("limit", Param "limit"); ("after", Param "after")];
         returns := AsIs;
         failure_prefix := "Failed to get followed artists: " |}
  | check_current_user_following_artists =>
      {| parameters :=
           [("ids", None)];
         target := "current_user_following_artists";
         args := [];
         kwargs :=
           [("ids", Param "ids")];
         returns := Wrapped "following";
         failure_prefix := "Failed to check if following artists: " |}
  | check_current_user_following_users =>
      {| parameters :=
           [("ids", None)];
         target := "current_user_following_users";
         args := [];
         kwargs :=
           [("ids", Param "ids")];
         returns := Wrapped "following";
         failure_prefix := "Failed to check if following users: " |}
  | get_current_user_playing_track =>
      {| parameters :=
           [];
         target := "current_user_playing_track";
         args := [];
         kwargs := [];
         returns := OrPlaceholder "track";
         failure_prefix := "Failed to get currently playing track: " |}
  | get_current_user_playlists =>
      {| parameters :=
           [("limit", Some (PyInt 50)); ("offset", Some (PyInt 0))];
         target := "current_user_playlists";
         args := [];
         kwargs :=
           [("limit", Param "limit"); ("offset", Param "offset")];
         returns := AsIs;
         failure_prefix := "Failed to get current user playlists: " |}
  | get_current_user_recently_played =>
      {| parameters :=
           [("limit", Some (PyInt 50)); ("after", Some (PyNone));
            ("before", Some (PyNone))];
         target := "current_user_recently_played";
         args := [];
         kwargs :=
           [("limit", Param "limit"); ("after", Param "after");
            ("before", Param "before")];
         returns := AsIs;
         failure_prefix := "Failed to get recently played tracks: " |}
  | get_current_user_saved_albums =>
      {| parameters :=
           [("limit", Some (PyInt 20)); ("offset", Some (PyInt 0));
            ("market", Some (PyNone))];
         target := "current_user_saved_albums";
         args := [];
         kwargs :=
           [("limit", Param "limit"); ("offset", Param "offset");
            ("market", Param "market")];
         returns := AsIs;
         failure_prefix := "Failed to get saved albums: " |}
  | check_current_user_saved_albums =>
      {| parameters :=
           [("albums", None)];
         target := "current_user_saved_albums_contains";
         args := [];
         kwargs :=
           [("albums", Param "albums")];
         returns := Wrapped "saved";
         failure_prefix := "Failed to check saved albums: " |}
  | get_current_user_saved_episodes =>
      {| parameters :=
           [("limit", Some (PyInt 20)); ("offset", Some (PyInt 0));
            ("market", Some (PyNone))];
         target := "current_user_saved_episodes";
         args := [];
         kwargs :=
           [("limit", Param "limit"); ("offset", Param "offset");
            ("market", Param "market")];
         returns := AsIs;
         failure_prefix := "Failed to get saved episodes: " |}
  | check_current_user_saved_episodes =>
      {| parameters :=
           [("episodes", None)];
         target := "current_user_saved_episodes_contains";
         args := [];
         kwargs :=
           [("episodes", Param "episodes")];
         returns := Wrapped "saved";
         failure_prefix := "Failed to check saved episodes: " |}
  | get_current_user_saved_shows =>
      {| parameters :=
           [("limit", Some (PyInt 20)); ("offset", Some (PyInt 0));
            ("market", Some (PyNone))];
         target := "current_user_saved_shows";
         args := [];
         kwargs :=
           [("limit", Param "limit"); ("offset", Param "offset");
            ("market", Param "market")];
         returns := AsIs;
         failure_prefix := "Failed to get saved shows: " |}
  | check_current_user_saved_shows =>
      {| parameters :=
           [("shows", None)];
         target := "current_user_saved_shows_contains";
         args := [];
         kwargs :=
           [("shows", Param "shows")];
         returns := Wrapped "saved";
         failure_prefix := "Failed to check saved shows: " |}
  | get_current_user_saved_tracks =>
      {| parameters :=
           [("limit", Some (PyInt 20)); ("offset", Some (PyInt 0));
            ("market", Some (PyNone))];
         target := "current_user_saved_tracks";
         args := [];
         kwargs :=
           [("limit", Param "limit"); ("offset", Param "offset");
            ("market", Param "market")];
         returns := AsIs;
         failure_prefix := "Failed to get saved tracks: " |}
  | check_current_user_saved_tracks =>
      {| parameters :=
           [("tracks", None)];
         target := "current_user_saved_tracks_contains";
         args := [];
         kwargs :=
           [("tracks", Param "tracks")];
         returns := Wrapped "saved";
         failure_prefix := "Failed to check saved tracks: " |}
  | get_current_user_top_artists =>
      {| parameters :=
           [("limit", Some (PyInt 20)); ("offset", Some (PyInt 0));
            ("time_range", Some (PyStr "medium_term"))];
         target := "current_user_top_artists";
         args := [];
         kwargs :=
           [("limit", Param "limit"); ("offset", Param "offset");
            ("time_range", Param "time_range")];
         returns := AsIs;
         failure_prefix := "Failed to get top artists: " |}
  | get_current_user_top_tracks =>
      {| parameters :=
           [("limit", Some (PyInt 20)); ("offset", Some (PyInt 0));
            ("time_range", Some (PyStr "medium_term"))];
         target := "current_user_top_tracks";
         args := [];
         kwargs :=
           [("limit", Param "limit"); ("offset", Param "offset");
            ("time_range", Param "time_range")];
         returns := AsIs;
         failure_prefix := "Failed to get top tracks: " |}
  | get_currently_playing =>
      {| parameters :=
           [("market", Some (PyNone)); ("additional_types", Some (PyNone))];
         target := "currently_playing";
         args := [];
         kwargs :=
           [("market", Param "market");
            ("additional_types", Param "additional_types")];
         returns := OrPlaceholder "currently_playing";
         failure_prefix := "Failed to get currently playing: " |}
  | get_devices =>
      {| parameters :=
           [];
         target := "devices";
         args := [];
         kwargs := [];
         returns := AsIs;
         failure_prefix := "Failed to get devices: " |}
  | get_playlist_items =>
      {| parameters :=
           [("playlist_id", None); ("fields", Some (PyNone));
            ("limit", Some (PyInt 100)); ("offset", Some (PyInt 0));
            ("market", Some (PyNone));
            ("additional_types", Some (PyStr "track,episode"))];
         target := "playlist_items";
         args := [Param "playlist_id"];
         kwargs :=
           [("fields", Param "fields"); ("limit", Param "limit");
            ("offset", Param "offset"); ("market", Param "market");
            ("additional_types", CommaTuple "additional_types" ["track"; "episode"])];
         returns := AsIs;
         failure_prefix := "Failed to get playlist items: " |}
  | get_queue =>
      {| parameters :=
           [];
         target := "queue";
         args := [];
         kwargs := [];
         returns := AsIs;
         failure_prefix := "Failed to get queue: " |}
  | search_general =>
      {| parameters :=
           [("query", None); ("limit", Some (PyInt 10));
            ("offset", Some (PyInt 0)); ("type", Some (PyStr "track"));
            ("market", Some (PyNone))];
         target := "search";
         args := [];
         kwargs :=
           [("q", Param "query"); ("limit", Param "limit");
            ("offset", Param "offset"); ("type", Param "type");
            ("market", Param "market")];
         returns := AsIs;
         failure_prefix := "Search failed: " |}
  | search_markets =>
      {| parameters :=
           [("query", None); ("limit", Some (PyInt 10));
            ("offset", Some (PyInt 0)); ("type", Some (PyStr "track"));
            ("markets", Some (PyNone)); ("total", Some (PyNone))];
         target := "search_markets";
         args := [];
         kwargs :=
           [("q", Param "query"); ("limit", Param "limit");
            ("offset", Param "offset"); ("type", Param "type");
            ("markets", Param "markets"); ("total", Param "total")];
         returns := AsIs;
         failure_prefix := "Multi-market search failed: " |}
  | get_user_playlist =>
      {| parameters :=
           [("user_id", None); ("playlist_id", None);
            ("fields", Some (PyNone)); ("market", Some (PyNone))];
         target := "user_playlist";
         args := [Param "user_id"; Param "playlist_id"];
         kwargs :=
           [("fields", Param "fields"); ("market", Param "market")];
         returns := AsIs;
         failure_prefix := "Failed to get user playlist: " |}
  end.

(** ** Running a tool *)

(** The values bound to a tool's parameters when its body starts. *)
Definition arguments := string -> pyval.

(** Binding of the keyword arguments a caller supplies: a parameter takes
    the supplied value, else its default; a required parameter that is
    not supplied makes the call fail before the body is entered. *)
Fixpoint bind_parameters (ps : list (string * option pyval))
    (supplied : list (string * pyval)) : option (list (string * pyval)) :=
  match ps with
  | [] => Some []
  | (p, default) :: rest =>
      let v := match assoc p supplied with Some v => Some v | None => default end in
      match v, bind_parameters rest supplied with
      | Some v, Some bound => Some ((p, v) :: bound)
      | _, _ => None
      end
  end.

Definition frame (bound : list (string * pyval)) : arguments :=
  fun p => match assoc p bound with Some v => v | None => PyNone end.

Definition comma : ascii := ","%char.

(** Evaluation of an argument expression.  Reading a parameter or a
    literal cannot fail.  [name.split(",")] exists on strings only: any
    other truthy value raises [AttributeError]. *)
Definition eval_arg (env : arguments) (a : argexpr) : completion pyval :=
  match a with
  | Param p => Return (env p)
  | Const v => Return v
  | CommaTuple p default =>
      let v := env p in
      if truthy v then
        match v with
        | PyStr s => Return (PyTuple (map PyStr (split comma s)))
        | _ => Raise {| exc_kind := OrdinaryException;
                        exc_str := "'" ++ type_name v
                                   ++ "' object has no attribute 'split'" |}
        end
      else Return (PyTuple (map PyStr default))
  end.

Fixpoint eval_args (env : arguments) (l : list argexpr)
    : completion (list pyval) :=
  match l with
  | [] => Return []
  | a :: rest =>
      match eval_arg env a with
      | Raise e => Raise e
      | Return v =>
          match eval_args env rest with
          | Raise e => Raise e
          | Return vs => Return (v :: vs)
          end
      end
  end.

Fixpoint eval_kwargs (env : arguments) (l : list (string * argexpr))
    : completion (list (string * pyval)) :=
  match l with
  | [] => Return []
  | (k, a) :: rest =>
      match eval_arg env a with
      | Raise e => Raise e
      | Return v =>
          match eval_kwargs env rest with
          | Raise e => Raise e
          | Return vs => Return ((k, v) :: vs)
          end
      end
  end.

(** The call a tool is about to make. *)
Definition prepare (t : tool) (env : arguments) : completion call :=
  match eval_args env (args t) with
  | Raise e => Raise e
  | Return pos =>
      match eval_kwargs env (kwargs t) with
      | Raise e => Raise e
      | Return kws =>
          Return {| method := target t; positional := pos; keywords := kws |}
      end
  end.

(** The [return] statement of the [try] block. *)
Definition returned (s : shape) (result : pyval) : pyval :=
  match s with
  | AsIs => result
  | OrPlaceholder key => if truthy result then result else single key PyNone
  | Wrapped key => single key result
  end.

(** [{"error": f"<prefix>{str(e)}"}] *)
Definition error_result (t : tool) (e : exn) : pyval :=
  single "error" (PyStr (failure_prefix t ++ exc_str e)).

(** The body shared by all tools:
<<
    try:
        spotify = get_spotify_client(token)
        result = spotify.<target>(<args>, <kwargs>)
        return <returns>
    except Exception as e:
        return {"error": f"<failure_prefix>{str(e)}"}
>> *)
Definition run (L : library) (op : operation) (token : pyval)
    (env : arguments) : M pyval :=
  let t := tool_of op in
  try_except
    (spotify <- get_spotify_client L token ;;
     m <- lift (prepare t env) ;;
     result <- call_method L spotify m ;;
     ret (returned (returns t) result))
    (fun e => ret (error_result t e)).

(** Every supplied keyword names a parameter. *)
Definition known_keywords (ps : list (string * option pyval))
    (supplied : list (string * pyval)) : bool :=
  forallb (fun kv => existsb (String.eqb (fst kv)) (map fst ps)) supplied.

(** A call by the host with keyword arguments [supplied].  A keyword that
    names no parameter, or a required parameter left out, is a
    [TypeError] of the call itself: the body is not entered. *)
Definition invoke (L : library) (op : operation) (token : pyval)
    (supplied : list (string * pyval)) : option (M pyval) :=
  if known_keywords (parameters (tool_of op)) supplied then
    match bind_parameters (parameters (tool_of op)) supplied with
    | Some bound => Some (run L op token (frame bound))
    | None => None
    end
  else None.

Definition result_of {A} (r : completion A * runtime) : completion A := fst r.
Definition runtime_of {A} (r : completion A * runtime) : runtime := snd r.

(** ** Named groups of tools and ways a body can go *)

Scheme Equality for operation.

(** The tools whose return statement is [result if result else {key: None}],
    with the key each one writes. *)
Definition placeholder_operations : list (operation * string) :=
  [(get_audio_features, "audio_features");
   (get_current_playback, "playback");
   (get_current_user_playing_track, "track");
   (get_currently_playing, "currently_playing")].

(** The tools whose return statement is [{key: result}]. *)
Definition rewrap_operations : list (operation * string) :=
  [(playlist_cover_image, "images");
   (playlist_is_following, "following");
   (check_current_user_following_artists, "following");
   (check_current_user_following_users, "following");
   (check_current_user_saved_albums, "saved");
   (check_current_user_saved_episodes, "saved");
   (check_current_user_saved_shows, "saved");
   (check_current_user_saved_tracks, "saved")].

(** The existence checks: tool, parameter holding the identifiers, key of
    the answer. *)
Definition existence_checks : list (operation * string * string) :=
  [(playlist_is_following, "user_ids", "following");
   (check_current_user_following_artists, "ids", "following");
   (check_current_user_following_users, "ids", "following");
   (check_current_user_saved_albums, "albums", "saved");
   (check_current_user_saved_episodes, "episodes", "saved");
   (check_current_user_saved_shows, "shows", "saved");
   (check_current_user_saved_tracks, "tracks", "saved")].

Definition parameter_names (op : operation) : list string :=
  map fst (parameters (tool_of op)).

(** What the [try] block gets from outside before its [return]: the
    constructor, the argument expressions and the method call, in the
    order the body evaluates them. *)
Definition delegated (L : library) (op : operation) (token : pyval)
    (env : arguments) : completion pyval :=
  match Spotify_init L token with
  | Some e => Raise e
  | None =>
      match prepare (tool_of op) env with
      | Raise e => Raise e
      | Return m => respond L token m
      end
  end.

(** An outcome the handler deals with: a value, or an [Exception]. *)
Definition catchable {A} (o : completion A) : bool :=
  match o with
  | Return _ => true
  | Raise e => is_Exception e
  end.

(** [{k: None}] for some key [k]. *)
Definition is_placeholder (v : pyval) : bool :=
  match v with
  | PyDict [(_, PyNone)] => true
  | _ => false
  end.

(** [{"error": <message>}] *)
Definition is_error_object (v : pyval) : bool :=
  match v with
  | PyDict [(k, PyStr _)] => k =? "error"
  | _ => false
  end.

(** The four results a tool can produce for an outcome of its [try]
    block. *)
Inductive result_shape (t : tool) : completion pyval -> pyval -> Prop :=
| shape_raw r :
    result_shape t (Return r) r
| shape_placeholder r key :
    truthy r = false ->
    result_shape t (Return r) (single key PyNone)
| shape_rewrap r key :
    result_shape t (Return r) (single key r)
| shape_error e :
    result_shape t (Raise e)
      (single "error" (PyStr (failure_prefix t ++ exc_str e))).

(** The server starts with nothing allocated and nothing logged. *)
Definition fresh_runtime : runtime :=
  {| module_globals := []; next_object := 0; trace := [] |}.

(** Every client in the trace was allocated below the allocator's next
    identity. *)
Definition allocator_ahead (rt : runtime) : Prop :=
  forall c, In (Constructed c) (trace rt) -> client_id c < next_object rt.

(** The calls recorded in a trace, with the client each went through. *)
Fixpoint calls_of (evs : list event) : list (client * call) :=
  match evs with
  | [] => []
  | Constructed _ :: rest => calls_of rest
  | Called c m :: rest => (c, m) :: calls_of rest
  end.

(** The name under which a parameter reaches the client: [query] is
    passed as [q], every other parameter keeps its name. *)
Definition forwarded_name (p : string) : string :=
  if p =? "query" then "q" else p.

(** A parameter reaches the prepared call with its value untouched,
    positionally or under keyword [k]. *)
Definition forwarded_as (t : tool) (env : arguments) (p k : string) : Prop :=
  exists m,
    prepare t env = Return m /\
    method m = target t /\
    (In (env p) (positional m) \/ In (k, env p) (keywords m)).

(** The trace gains one client, built with the token, and one call
    through it. *)
Definition one_client_one_call (L : library) (op : operation)
    (token : pyval) (env : arguments) (rt : runtime) : Prop :=
  exists m,
    trace (runtime_of (run L op token env rt))
    = trace rt ++ [Constructed {| client_id := next_object rt;
                                  auth := token |};
                   Called {| client_id := next_object rt; auth := token |} m].

(** The same on the argument expressions of the table. *)
Definition reads_param (p : string) (a : argexpr) : bool :=
  match a with
  | Param q => q =? p
  | _ => false
  end.

Definition forwards (t : tool) (p k : string) : bool :=
  existsb (reads_param p) (args t)
  || existsb (fun ka => (fst ka =? k) && reads_param p (snd ka)) (kwargs t).

Definition computes (a : argexpr) : bool :=
  match a with
  | CommaTuple _ _ => true
  | _ => false
  end.

(** No argument expression of the tool can raise. *)
Definition plain (t : tool) : bool :=
  negb (existsb computes (args t))
  && negb (existsb (fun ka => computes (snd ka)) (kwargs t)).

(** The parameters a tool splits at commas. *)
Definition split_parameter (a : argexpr) : list string :=
  match a with
  | CommaTuple p _ => [p]
  | _ => []
  end.

Definition split_parameters (t : tool) : list string :=
  flat_map split_parameter (args t)
  ++ flat_map (fun ka => split_parameter (snd ka)) (kwargs t).

(** The arguments a tool splits are strings, as their annotation [str]
    says. *)
Definition strings_where_split (t : tool) (env : arguments) : Prop :=
  forall p, In p (split_parameters t) -> exists s, env p = PyStr s.

(** The three result shapes of the data model: the raw response, a
    placeholder, an error object. *)
Definition raw_placeholder_or_error (o : completion pyval) (v : pyval)
    : Prop :=
  o = Return v \/ is_placeholder v = true \/ is_error_object v = true.

(** ** A library for examples *)

Module Sample.

(** A library whose constructor returns and whose every call comes back
    with [answer]. *)
Definition answering (answer : completion pyval) : library :=
  {| Spotify_init := fun _ => None; respond := fun _ _ => answer |}.

(** A library that rejects the credential in the constructor. *)
Definition rejecting (e : exn) : library :=
  {| Spotify_init := fun _ => Some e;
     respond := fun _ _ => Return PyNone |}.

Definition token : pyval := PyStr "BQDx-user-token".

Definition unauthorized : exn :=
  {| exc_kind := OrdinaryException;
     exc_str := "http status: 401, code: -1 - The access token expired" |}.

Definition no_arguments : arguments := fun _ => PyNone.

Definition image : pyval :=
  PyDict [("url", PyStr "https://i.scdn.co/image/ab67616d");
          ("height", PyInt 640); ("width", PyInt 640)].

Definition features : pyval :=
  PyDict [("id", PyStr "11dFghVXANMlKmJXsNCbNl");
          ("danceability", PyFloat 3 (-2)); ("key", PyInt 5)].

(** A library that knows which identifiers are saved: it answers a call
    carrying a list with one boolean per element. *)
Definition saved (v : pyval) : bool :=
  match v with
  | PyStr s => s =? "id1"
  | _ => false
  end.

Definition membership_of (m : call) : pyval :=
  match positional m, keywords m with
  | [], [(_, PyList ids)] => PyList (map (fun i => PyBool (saved i)) ids)
  | [_; PyList ids], [] => PyList (map (fun i => PyBool (saved i)) ids)
  | _, _ => PyNone
  end.

Definition checking : library :=
  {| Spotify_init := fun _ => None;
     respond := fun _ m => Return (membership_of m) |}.

Definition with_argument (p : string) (v : pyval) : arguments :=
  fun q => if q =? p then v else PyNone.

Definition playlist : pyval := PyStr "37i9dQZF1DXcBWIGoYBM5M".

(** [get_playlist_items(token, playlist_id=playlist)]: every other
    parameter at its default. *)
Definition playlist_items_arguments : arguments :=
  frame [("playlist_id", playlist); ("fields", PyNone);
         ("limit", PyInt 100); ("offset", PyInt 0); ("market", PyNone);
         ("additional_types", PyStr "track,episode")].

End Sample.

(** ** Strings, sessions and groups used further on *)

(** [sep.join(pieces)] *)
Fixpoint join (sep : string) (pieces : list string) : string :=
  match pieces with
  | [] => ""
  | piece :: rest =>
      match rest with
      | [] => piece
      | _ :: _ => piece ++ sep ++ join sep rest
      end
  end.

(** [s.count(c)] for a one-character [c]. *)
Fixpoint count_char (c : ascii) (s : string) : nat :=
  match s with
  | EmptyString => 0
  | String c' rest =>
      if Ascii.eqb c' c then S (count_char c rest) else count_char c rest
  end.

(** [env] with parameter [p] bound to [v]. *)
Definition update (env : arguments) (p : string) (v : pyval) : arguments :=
  fun q => if q =? p then v else env q.

(** The searches that write the item type themselves. *)
Definition type_specific_searches : list (operation * string) :=
  [(search_tracks, "track"); (search_artists, "artist");
   (search_albums, "album"); (search_playlists, "playlist")].

(** The tools whose delegated call is [spotify.search]. *)
Definition search_family : list operation :=
  [search_tracks; search_artists; search_albums; search_playlists;
   search_general].

(** One invocation as the host delivers it: tool, token and the values
    bound to the parameters. *)
Definition request : Type := operation * pyval * arguments.

(** The host running one invocation after the other in the same
    process. *)
Fixpoint serve (L : library) (reqs : list request) (rt : runtime)
    : list (completion pyval) * runtime :=
  match reqs with
  | [] => ([], rt)
  | (op, token, env) :: rest =>
      let (r, rt1) := run L op token env rt in
      let (rs, rt2) := serve L rest rt1 in
      (r :: rs, rt2)
  end.

(** The clients built in a trace. *)
Fixpoint clients_of (evs : list event) : list client :=
  match evs with
  | [] => []
  | Constructed c :: rest => c :: clients_of rest
  | Called _ _ :: rest => clients_of rest
  end.

(** Reading the trace from its start with the clients [built] so far:
    every call goes through a client that was built earlier. *)
Fixpoint built_before_use (built : list client) (evs : list event) : Prop :=
  match evs with
  | [] => True
  | Constructed c :: rest => built_before_use (c :: built) rest
  | Called c _ :: rest => In c built /\ built_before_use built rest
  end.

(** No client is built twice, no client carries two calls, and every
    call went through a client built before it. *)
Definition clients_used_once (evs : list event) : Prop :=
  NoDup (map client_id (clients_of evs)) /\
  NoDup (map (fun cm => client_id (fst cm)) (calls_of evs)) /\
  built_before_use [] evs.

(** The keyword arguments a host supplies name parameters of the tool and
    include the required ones. *)
Definition well_formed_call (op : operation) (supplied : list (string * pyval))
    : Prop :=
  (forall k v, In (k, v) supplied -> In k (parameter_names op)) /\
  (forall p, In (p, None) (parameters (tool_of op)) ->
             exists v, assoc p supplied = Some v).

(** A library that serves one credential only: calls made with the
    token [good] come back with [answer], all others are refused. *)
Definition serving_only (good : string) (answer : completion pyval)
    : library :=
  {| Spotify_init := fun _ => None;
     respond := fun auth _ =>
       match auth with
       | PyStr s => if s =? good then answer else Raise Sample.unauthorized
       | _ => Raise Sample.unauthorized
       end |}.

(** Three invocations for the host to run in a row. *)
Definition sample_session : list request :=
  [(get_queue, Sample.token, Sample.no_arguments);
   (get_playlist_items, Sample.token,
    Sample.with_argument "additional_types" (PyInt 5));
   (get_devices, PyStr "another-token", Sample.no_arguments)].

(** ** Basic facts *)

Lemma prefix_app (s t : string) : String.prefix s (s ++ t) = true.
Proof.
  induction s as [|c s IH]; simpl.
  - destruct t; reflexivity.
  - destruct (ascii_dec c c) as [_|n]; [exact IH | now destruct n].
Qed.

Lemma size_single (k : string) (v : pyval) : size (single k v) = S (size v + 0).
Proof. reflexivity. Qed.

Lemma single_not_itself (k : string) (v : pyval) : single k v <> v.
Proof.
  intros H. apply (f_equal size) in H. rewrite size_single in H. lia.
Qed.

Lemma all_operations_complete (op : operation) : In op all_operations.
Proof. destruct op; vm_compute; tauto. Qed.

(** A property checked on the list of tools holds of every tool. *)
Lemma for_all_operations (P : operation -> bool) :
  forallb P all_operations = true -> forall op, P op = true.
Proof.
  intros H op. rewrite forallb_forall in H. apply H, all_operations_complete.
Qed.

Lemma operation_beq_eq (a b : operation) : operation_beq a b = true <-> a = b.
Proof.
  split.
  - apply internal_operation_dec_bl.
  - apply internal_operation_dec_lb.
Qed.

Lemma calls_of_app (a b : list event) :
  calls_of (a ++ b) = (calls_of a ++ calls_of b)%list.
Proof.
  induction a as [|[c|c m] a IH]; simpl; [reflexivity | exact IH |].
  now rewrite IH.
Qed.

Lemma clients_of_app (a b : list event) :
  clients_of (a ++ b) = (clients_of a ++ clients_of b)%list.
Proof.
  induction a as [|[c|c m] a IH]; simpl; [reflexivity | | exact IH].
  now rewrite IH.
Qed.

(** ** The body, step by step *)

Section Body.

Variable L : library.
Variable op : operation.
Variable token : pyval.
Variable env : arguments.

(** The result of a run is decided by [delegated]: a returned value goes
    through the return statement, an [Exception] through the handler, an
    exit signal leaves the tool. *)
Lemma run_result (rt : runtime) :
  result_of (run L op token env rt) =
  match delegated L op token env with
  | Return r => Return (returned (returns (tool_of op)) r)
  | Raise e =>
      if is_Exception e then Return (error_result (tool_of op) e) else Raise e
  end.
Proof.
  unfold run, delegated, result_of, try_except, bind, get_spotify_client,
    Spotify, lift, call_method, ret.
  destruct (Spotify_init L token) as [e|]; simpl.
  - destruct (is_Exception e); reflexivity.
  - destruct (prepare (tool_of op) env) as [m|e]; simpl.
    + destruct (respond L token m) as [r|e]; simpl; [reflexivity|].
      destruct (is_Exception e); reflexivity.
    + destruct (is_Exception e); reflexivity.
Qed.

(** The runtime after a run whose constructor returned and whose
    arguments evaluated. *)
Lemma run_runtime (rt : runtime) (m : call) :
  Spotify_init L token = None ->
  prepare (tool_of op) env = Return m ->
  let c := {| client_id := next_object rt; auth := token |} in
  runtime_of (run L op token env rt) =
  {| module_globals := module_globals rt;
     next_object := S (next_object rt);
     trace := trace rt ++ [Constructed c; Called c m] |}.
Proof.
  intros Hinit Hprep.
  unfold run, runtime_of, try_except, bind, get_spotify_client,
    Spotify, lift, call_method, ret, log.
  rewrite Hinit, Hprep; simpl.
  destruct (respond L token m) as [r|e]; simpl.
  - rewrite <- app_assoc. reflexivity.
  - destruct (is_Exception e); simpl; rewrite <- app_assoc; reflexivity.
Qed.

(** When the constructor raises, nothing is allocated or logged. *)
Lemma run_runtime_rejected (rt : runtime) (e : exn) :
  Spotify_init L token = Some e ->
  runtime_of (run L op token env rt) = rt.
Proof.
  intros Hinit.
  unfold run, runtime_of, try_except, bind, get_spotify_client, Spotify, ret.
  rewrite Hinit; simpl.
  destruct (is_Exception e); reflexivity.
Qed.

End Body.

(** The return statement never puts an ["error"] key around a result. *)
Lemma returned_error_field (op : operation) (r : pyval) :
  has_field "error" (returned (returns (tool_of op)) r) = true ->
  returned (returns (tool_of op)) r = r.
Proof.
  destruct op; simpl; try reflexivity;
    try (destruct (truthy r); [reflexivity | discriminate]);
    discriminate.
Qed.

Lemma placeholder_operations_spec (op : operation) (key : string) :
  In (op, key) placeholder_operations <->
  returns (tool_of op) = OrPlaceholder key.
Proof.
  split.
  - simpl. intros H.
    repeat (destruct H as [H|H]; [inversion H; subst; reflexivity|]).
    contradiction.
  - destruct op; simpl; intros H; try discriminate;
      inversion H; subst; tauto.
Qed.

Lemma rewrap_operations_spec (op : operation) (key : string) :
  In (op, key) rewrap_operations <->
  returns (tool_of op) = Wrapped key.
Proof.
  split.
  - simpl. intros H.
    repeat (destruct H as [H|H]; [inversion H; subst; reflexivity|]).
    contradiction.
  - destruct op; simpl; intros H; try discriminate;
      inversion H; subst; tauto.
Qed.

(** Every other tool returns the result as it is. *)
Lemma passthrough_operations_spec (op : operation) :
  (forall key, ~ In (op, key) placeholder_operations) ->
  (forall key, ~ In (op, key) rewrap_operations) ->
  returns (tool_of op) = AsIs.
Proof.
  intros Hp Hw.
  destruct (returns (tool_of op)) as [|key|key] eqn:E.
  - reflexivity.
  - apply placeholder_operations_spec in E. now apply Hp in E.
  - apply rewrap_operations_spec in E. now apply Hw in E.
Qed.

(** The failure prefixes tell the tools apart. *)
Lemma failure_prefix_injective (a b : operation) :
  failure_prefix (tool_of a) = failure_prefix (tool_of b) -> a = b.
Proof.
  intros H.
  assert (C : forallb (fun x => forallb (fun y =>
              implb (failure_prefix (tool_of x) =? failure_prefix (tool_of y))
                    (operation_beq x y)) all_operations) all_operations = true)
    by (vm_compute; reflexivity).
  rewrite forallb_forall in C. specialize (C a (all_operations_complete a)).
  rewrite forallb_forall in C. specialize (C b (all_operations_complete b)).
  rewrite H, String.eqb_refl in C. now apply operation_beq_eq.
Qed.

(** The module's globals are the same after any run. *)
Lemma run_globals (L : library) (op : operation) (token : pyval)
    (env : arguments) (rt : runtime) :
  module_globals (runtime_of (run L op token env rt)) = module_globals rt.
Proof.
  unfold run, runtime_of, try_except, bind, get_spotify_client,
    Spotify, lift, call_method, ret, log.
  destruct (Spotify_init L token) as [e|]; simpl.
  - destruct (is_Exception e); reflexivity.
  - destruct (prepare (tool_of op) env) as [m|e]; simpl.
    + destruct (respond L token m) as [r|e]; simpl; [reflexivity|].
      destruct (is_Exception e); reflexivity.
    + destruct (is_Exception e); reflexivity.
Qed.

(** What the handler makes of an exception. *)
Lemma run_cases (L : library) (op : operation) (token : pyval)
    (env : arguments) (rt : runtime) :
  let handled e :=
    if is_Exception e then Return (error_result (tool_of op) e) else Raise e in
  let c := {| client_id := next_object rt; auth := token |} in
  let built :=
    {| module_globals := module_globals rt;
       next_object := S (next_object rt);
       trace := trace rt ++ [Constructed c] |} in
  run L op token env rt =
  match Spotify_init L token with
  | Some e => (handled e, rt)
  | None =>
      match prepare (tool_of op) env with
      | Raise e => (handled e, built)
      | Return m =>
          (match respond L token m with
           | Return r => Return (returned (returns (tool_of op)) r)
           | Raise e => handled e
           end,
           log (Called c m) built)
      end
  end.
Proof.
  unfold run, try_except, bind, get_spotify_client, Spotify, lift,
    call_method, ret, log.
  destruct (Spotify_init L token) as [e|]; simpl.
  - destruct (is_Exception e); reflexivity.
  - destruct (prepare (tool_of op) env) as [m|e]; simpl.
    + destruct (respond L token m) as [r|e]; simpl; [reflexivity|].
      destruct (is_Exception e); reflexivity.
    + destruct (is_Exception e); reflexivity.
Qed.

(** ** Argument expressions *)

Section ArgumentExpressions.

Variable env : arguments.

Lemma eval_arg_total (a : argexpr) :
  (forall p, In p (split_parameter a) -> exists s, env p = PyStr s) ->
  exists v, eval_arg env a = Return v.
Proof.
  intros H. destruct a as [p|v|p default]; simpl.
  - now exists (env p).
  - now exists v.
  - destruct (H p) as [s Hs]; [simpl; auto|]. rewrite Hs.
    destruct (truthy (PyStr s)); eauto.
Qed.

Lemma eval_arg_reads (p : string) (a : argexpr) :
  reads_param p a = true -> eval_arg env a = Return (env p).
Proof.
  destruct a as [q|v|q default]; simpl; try discriminate.
  intros H. apply String.eqb_eq in H. now subst.
Qed.

Lemma eval_args_total (l : list argexpr) :
  (forall p, In p (flat_map split_parameter l) -> exists s, env p = PyStr s) ->
  exists vs, eval_args env l = Return vs.
Proof.
  induction l as [|a l IH]; simpl; intros H.
  - now exists [].
  - destruct (eval_arg_total a) as [v Hv].
    { intros p Hp. apply H, in_or_app. now left. }
    destruct IH as [vs Hvs].
    { intros p Hp. apply H, in_or_app. now right. }
    rewrite Hv, Hvs. eauto.
Qed.

Lemma eval_kwargs_total (l : list (string * argexpr)) :
  (forall p, In p (flat_map (fun ka => split_parameter (snd ka)) l) ->
             exists s, env p = PyStr s) ->
  exists vs, eval_kwargs env l = Return vs.
Proof.
  induction l as [|[k a] l IH]; simpl; intros H.
  - now exists [].
  - destruct (eval_arg_total a) as [v Hv].
    { intros p Hp. apply H, in_or_app. now left. }
    destruct IH as [vs Hvs].
    { intros p Hp. apply H, in_or_app. now right. }
    rewrite Hv, Hvs. eauto.
Qed.

Lemma eval_args_reads (p : string) (l : list argexpr) (vs : list pyval) :
  eval_args env l = Return vs ->
  existsb (reads_param p) l = true ->
  In (env p) vs.
Proof.
  revert vs. induction l as [|a l IH]; simpl; intros vs Hev Hex.
  - discriminate.
  - destruct (eval_arg env a) as [v|e] eqn:Ea; [|discriminate].
    destruct (eval_args env l) as [ws|e] eqn:El; [|discriminate].
    inversion Hev; subst; clear Hev.
    apply orb_true_iff in Hex as [Hr|Hex].
    + rewrite (eval_arg_reads p a Hr) in Ea. inversion Ea. now left.
    + right. now apply IH.
Qed.

Lemma eval_kwargs_reads (p k : string) (l : list (string * argexpr))
    (vs : list (string * pyval)) :
  eval_kwargs env l = Return vs ->
  existsb (fun ka => (fst ka =? k) && reads_param p (snd ka)) l = true ->
  In (k, env p) vs.
Proof.
  revert vs. induction l as [|[k' a] l IH]; simpl; intros vs Hev Hex.
  - discriminate.
  - destruct (eval_arg env a) as [v|e] eqn:Ea; [|discriminate].
    destruct (eval_kwargs env l) as [ws|e] eqn:El; [|discriminate].
    inversion Hev; subst; clear Hev.
    apply orb_true_iff in Hex as [Hr|Hex].
    + apply andb_true_iff in Hr as [Hk Hr]. apply String.eqb_eq in Hk.
      rewrite (eval_arg_reads p a Hr) in Ea. inversion Ea. subst. now left.
    + right. now apply IH.
Qed.

(** With strings where the tool splits, the call is prepared. *)
Lemma prepare_total (t : tool) :
  strings_where_split t env ->
  exists m, prepare t env = Return m /\ method m = target t.
Proof.
  intros H. unfold prepare.
  destruct (eval_args_total (args t)) as [pos Hpos].
  { intros p Hp. apply H. unfold split_parameters. apply in_or_app. now left. }
  destruct (eval_kwargs_total (kwargs t)) as [kws Hkws].
  { intros p Hp. apply H. unfold split_parameters. apply in_or_app. now right. }
  rewrite Hpos, Hkws. eexists. split; reflexivity.
Qed.

(** An argument expression that reads a parameter puts its value into
    the call. *)
Lemma forwards_sound (t : tool) (p k : string) :
  strings_where_split t env ->
  forwards t p k = true ->
  forwarded_as t env p k.
Proof.
  intros Hs Hf. destruct (prepare_total t Hs) as [m [Hm Ht]].
  exists m. split; [exact Hm|]. split; [exact Ht|].
  unfold prepare in Hm.
  destruct (eval_args env (args t)) as [pos|e] eqn:Ea; [|discriminate].
  destruct (eval_kwargs env (kwargs t)) as [kws|e] eqn:Ek; [|discriminate].
  inversion Hm; subst; clear Hm. simpl.
  apply orb_true_iff in Hf as [Hf|Hf].
  - left. eapply eval_args_reads; eauto.
  - right. eapply eval_kwargs_reads; eauto.
Qed.

End ArgumentExpressions.

(** Only [get_playlist_items] computes on a parameter. *)
Lemma plain_operations (op : operation) :
  op <> get_playlist_items -> split_parameters (tool_of op) = [].
Proof. destruct op; intros H; try reflexivity. now destruct H. Qed.

Lemma split_parameters_playlist_items :
  split_parameters (tool_of get_playlist_items) = ["additional_types"].
Proof. reflexivity. Qed.

(** ** Scenarios *)

Import Sample.

(** [get_track_info(token, "abc123")] with a rejected token. *)
Example get_track_info_rejected :
  result_of (run (rejecting unauthorized) get_track_info token
               (with_argument "track_id" (PyStr "abc123")) fresh_runtime)
  = Return (PyDict [("error", PyStr
      "Failed to get track info: http status: 401, code: -1 - The access token expired")]).
Proof. reflexivity. Qed.

(** A host call that leaves the optional parameters out gets the
    defaults of the signature. *)
Example get_playlist_items_defaults :
  option_map (fun run => result_of (run fresh_runtime))
    (invoke (answering (Return image)) get_playlist_items token
       [("playlist_id", playlist)])
  = Some (result_of (run (answering (Return image)) get_playlist_items token
                       playlist_items_arguments fresh_runtime)).
Proof. reflexivity. Qed.

Example get_playlist_items_call :
  prepare (tool_of get_playlist_items) playlist_items_arguments
  = Return {| method := "playlist_items";
              positional := [playlist];
              keywords := [("fields", PyNone); ("limit", PyInt 100);
                           ("offset", PyInt 0); ("market", PyNone);
                           ("additional_types",
                            PyTuple [PyStr "track"; PyStr "episode"])] |}.
Proof. reflexivity. Qed.

Example split_keeps_empty_pieces :
  split comma "track,,episode," = ["track"; ""; "episode"; ""].
Proof. reflexivity. Qed.

(** A truthy [additional_types] that is not a string has no [split]; the
    handler reports it and no call is made. *)
Example get_playlist_items_not_a_string :
  run (answering (Return image)) get_playlist_items token
    (with_argument "additional_types" (PyInt 5)) fresh_runtime
  = (Return (PyDict [("error", PyStr
       "Failed to get playlist items: 'int' object has no attribute 'split'")]),
     {| module_globals := []; next_object := 1;
        trace := [Constructed {| client_id := 0; auth := token |}] |}).
Proof. reflexivity. Qed.

(** An exit signal is not an [Exception]: it leaves the tool. *)
Example exit_signal_propagates :
  result_of (run (answering (Raise {| exc_kind := ExitSignal; exc_str := "" |}))
               get_devices token no_arguments fresh_runtime)
  = Raise {| exc_kind := ExitSignal; exc_str := "" |}.
Proof. reflexivity. Qed.

(** ** Result shapes *)

(** C1, as stated, fails.  [check_current_user_saved_tracks] answers
    [{"saved": [True, False]}], which is neither the response it got, nor
    a placeholder, nor an error object; and [get_audio_features] hands
    back the list of feature objects it received, which is not a
    mapping. *)
Lemma three_shapes_counterexample :
  (exists v,
     result_of (run checking check_current_user_saved_tracks token
                  (with_argument "tracks" (PyList [PyStr "id1"; PyStr "id2"]))
                  fresh_runtime) = Return v /\
     ~ raw_placeholder_or_error
         (delegated checking check_current_user_saved_tracks token
            (with_argument "tracks" (PyList [PyStr "id1"; PyStr "id2"]))) v) /\
  (exists v,
     result_of (run (answering (Return (PyList [features]))) get_audio_features
                  token
                  (with_argument "tracks" (PyList [PyStr "11dFghVXANMlKmJXsNCbNl"]))
                  fresh_runtime) = Return v /\
     is_mapping v = false).
Proof.
  split.
  - eexists. split; [reflexivity|].
    intros [H|[H|H]]; vm_compute in H; discriminate.
  - eexists. split; reflexivity.
Qed.

(** C1, amended.  Whatever the constructor, the argument expressions and
    the call do short of an exit signal, the tool returns a value of one
    of four shapes: the response as it is, a placeholder [{key: None}]
    (for a falsy response only), the response under a fixed key, or the
    error object.  Every result other than a response handed back as it
    is is a mapping.  After a failure the result has the ["error"] field;
    after a success it has one only if it is the response itself. *)
Theorem result_shapes :
  forall (L : library) (op : operation) (token : pyval) (env : arguments)
         (rt : runtime),
    catchable (delegated L op token env) = true ->
    exists v,
      result_of (run L op token env rt) = Return v /\
      result_shape (tool_of op) (delegated L op token env) v /\
      (is_mapping v = true \/ delegated L op token env = Return v) /\
      (forall e, delegated L op token env = Raise e ->
                 has_field "error" v = true) /\
      (forall r, delegated L op token env = Return r ->
                 has_field "error" v = true -> v = r).
Proof.
  intros L op tok env rt Hc. rewrite run_result.
  destruct (delegated L op tok env) as [r|e]; simpl in Hc.
  - exists (returned (returns (tool_of op)) r). split; [reflexivity|].
    split; [|split; [|split]].
    + destruct (returns (tool_of op)) as [|key|key]; simpl.
      * constructor.
      * destruct (truthy r) eqn:T; now constructor.
      * constructor.
    + destruct (returns (tool_of op)) as [|key|key]; simpl; auto.
      destruct (truthy r); auto.
    + intros e He. discriminate.
    + intros r' Hr' Hf. inversion Hr'; subst.
      now apply returned_error_field.
  - rewrite Hc. exists (error_result (tool_of op) e). split; [reflexivity|].
    split; [constructor|]. split; [now left|]. split.
    + reflexivity.
    + intros r Hr. discriminate.
Qed.

Lemma result_shapes_witness :
  catchable (delegated (answering (Return PyNone)) get_current_playback token
               no_arguments) = true /\
  exists v,
    result_of (run (answering (Return PyNone)) get_current_playback token
                 no_arguments fresh_runtime) = Return v /\
    result_shape (tool_of get_current_playback)
      (delegated (answering (Return PyNone)) get_current_playback token
         no_arguments) v /\
    (is_mapping v = true \/
     delegated (answering (Return PyNone)) get_current_playback token
       no_arguments = Return v) /\
    (forall e, delegated (answering (Return PyNone)) get_current_playback token
                 no_arguments = Raise e -> has_field "error" v = true) /\
    (forall r, delegated (answering (Return PyNone)) get_current_playback token
                 no_arguments = Return r -> has_field "error" v = true -> v = r).
Proof.
  split; [reflexivity|].
  apply (result_shapes (answering (Return PyNone)) get_current_playback token
           no_arguments fresh_runtime).
  reflexivity.
Defined.

(** ** Failures *)

(** C2.  When the constructor or the call (or the one argument
    expression that can) raises an [Exception] [e], the tool returns
    [{"error": prefix + str(e)}]: one field, named ["error"], whose text
    starts with the tool's own prefix, which no other tool uses, and
    continues with the description of [e].  Nothing is raised. *)
Theorem failure_becomes_error_object :
  forall (L : library) (op : operation) (token : pyval) (env : arguments)
         (rt : runtime) (e : exn),
    delegated L op token env = Raise e ->
    is_Exception e = true ->
    exists message,
      result_of (run L op token env rt)
      = Return (PyDict [("error", PyStr message)]) /\
      message = (failure_prefix (tool_of op) ++ exc_str e)%string /\
      String.prefix (failure_prefix (tool_of op)) message = true /\
      (forall op', failure_prefix (tool_of op') = failure_prefix (tool_of op) ->
                   op' = op).
Proof.
  intros L op tok env rt e Hd He.
  exists (failure_prefix (tool_of op) ++ exc_str e)%string.
  rewrite run_result, Hd, He. split; [reflexivity|]. split; [reflexivity|].
  split; [apply prefix_app|]. intros op'. apply failure_prefix_injective.
Qed.

Lemma failure_becomes_error_object_witness :
  exists message,
    result_of (run (rejecting unauthorized) get_album_info token
                 (with_argument "album_id" (PyStr "4aawyAB9vmqN3uQ7FjRGTy"))
                 fresh_runtime)
    = Return (PyDict [("error", PyStr message)]) /\
    message = (failure_prefix (tool_of get_album_info)
               ++ exc_str unauthorized)%string /\
    String.prefix (failure_prefix (tool_of get_album_info)) message = true /\
    (forall op',
        failure_prefix (tool_of op') = failure_prefix (tool_of get_album_info) ->
        op' = get_album_info).
Proof.
  apply (failure_becomes_error_object (rejecting unauthorized) get_album_info
           token (with_argument "album_id" (PyStr "4aawyAB9vmqN3uQ7FjRGTy"))
           fresh_runtime unauthorized);
    reflexivity.
Defined.

(** ** Successful calls *)

(** C3, as stated, fails.  [playlist_cover_image] gets a non-empty list
    of images from the client and returns it under ["images"], not as it
    is; it does the same when the response is a mapping. *)
Lemma unmodified_response_counterexample :
  (truthy (PyList [image]) = true /\
   delegated (answering (Return (PyList [image]))) playlist_cover_image token
     (with_argument "playlist_id" playlist) = Return (PyList [image]) /\
   result_of (run (answering (Return (PyList [image]))) playlist_cover_image
                token (with_argument "playlist_id" playlist) fresh_runtime)
   <> Return (PyList [image])) /\
  (truthy image = true /\
   delegated (answering (Return image)) playlist_cover_image token
     (with_argument "playlist_id" playlist) = Return image /\
   result_of (run (answering (Return image)) playlist_cover_image
                token (with_argument "playlist_id" playlist) fresh_runtime)
   <> Return image).
Proof.
  repeat split; try reflexivity; vm_compute; discriminate.
Qed.

(** C3, amended.  When the call comes back with a truthy response [r],
    a tool outside the eight rewrapping ones returns [r] itself; each of
    those eight returns [{key: r}] with its own key.  Either way, the
    result has no ["error"] field unless [r] has one. *)
Theorem truthy_response_returned :
  forall (L : library) (op : operation) (token : pyval) (env : arguments)
         (rt : runtime) (r : pyval),
    delegated L op token env = Return r ->
    truthy r = true ->
    ((forall key, ~ In (op, key) rewrap_operations) ->
     result_of (run L op token env rt) = Return r) /\
    (forall key, In (op, key) rewrap_operations ->
     result_of (run L op token env rt) = Return (single key r)) /\
    (has_field "error" r = false ->
     exists v, result_of (run L op token env rt) = Return v /\
               has_field "error" v = false).
Proof.
  intros L op tok env rt r Hd Ht. rewrite run_result, Hd.
  split; [|split].
  - intros Hw. destruct (returns (tool_of op)) as [|key|key] eqn:E; simpl.
    + reflexivity.
    + now rewrite Ht.
    + apply rewrap_operations_spec in E. now apply Hw in E.
  - intros key Hin. apply rewrap_operations_spec in Hin. now rewrite Hin.
  - intros Hf. eexists. split; [reflexivity|].
    destruct (has_field "error" (returned (returns (tool_of op)) r)) eqn:E;
      [|reflexivity].
    pose proof (returned_error_field _ _ E) as Er. rewrite Er in E.
    congruence.
Qed.

Lemma truthy_response_returned_witness :
  ((forall key, ~ In (get_track_info, key) rewrap_operations) ->
   result_of (run (answering (Return features)) get_track_info token
                (with_argument "track_id" (PyStr "abc123")) fresh_runtime)
   = Return features) /\
  (forall key, In (get_track_info, key) rewrap_operations ->
   result_of (run (answering (Return features)) get_track_info token
                (with_argument "track_id" (PyStr "abc123")) fresh_runtime)
   = Return (single key features)) /\
  (has_field "error" features = false ->
   exists v,
     result_of (run (answering (Return features)) get_track_info token
                  (with_argument "track_id" (PyStr "abc123")) fresh_runtime)
     = Return v /\ has_field "error" v = false).
Proof.
  apply (truthy_response_returned (answering (Return features)) get_track_info
           token (with_argument "track_id" (PyStr "abc123")) fresh_runtime
           features);
    reflexivity.
Defined.

(** C4.  For [get_audio_features], [get_current_playback],
    [get_current_user_playing_track] and [get_currently_playing], a falsy
    response ([None], [{}], [[]]) is replaced by the tool's placeholder
    [{key: None}], which is neither the empty mapping nor [None]. *)
Theorem absent_result_yields_placeholder :
  forall (L : library) (op : operation) (key : string) (token : pyval)
         (env : arguments) (rt : runtime) (r : pyval),
    In (op, key) placeholder_operations ->
    delegated L op token env = Return r ->
    truthy r = false ->
    result_of (run L op token env rt) = Return (PyDict [(key, PyNone)]) /\
    result_of (run L op token env rt) <> Return (PyDict []) /\
    result_of (run L op token env rt) <> Return PyNone.
Proof.
  intros L op key tok env rt r Hin Hd Ht.
  apply placeholder_operations_spec in Hin.
  rewrite run_result, Hd, Hin. simpl. rewrite Ht.
  repeat split; discriminate.
Qed.

Lemma absent_result_yields_placeholder_witness :
  result_of (run (answering (Return PyNone)) get_current_user_playing_track
               token no_arguments fresh_runtime)
  = Return (PyDict [("track", PyNone)]) /\
  result_of (run (answering (Return PyNone)) get_current_user_playing_track
               token no_arguments fresh_runtime)
  <> Return (PyDict []) /\
  result_of (run (answering (Return PyNone)) get_current_user_playing_track
               token no_arguments fresh_runtime)
  <> Return PyNone.
Proof.
  apply (absent_result_yields_placeholder (answering (Return PyNone))
           get_current_user_playing_track "track" token no_arguments
           fresh_runtime PyNone).
  - simpl. tauto.
  - reflexivity.
  - reflexivity.
Defined.

(** The falsy responses the client can produce for "nothing there". *)
Lemma empty_responses_are_falsy :
  truthy PyNone = false /\ truthy (PyDict []) = false /\
  truthy (PyList []) = false.
Proof. repeat split. Qed.

(** ** Existence checks *)

(** C5.  An existence check called with the identifiers [ids] forwards
    that list to the client; when the client comes back with the
    service's answer for it, one boolean per identifier, the tool returns
    that list under its key (["saved"] or ["following"]): as many
    booleans as identifiers, the i-th one answering for the i-th
    identifier. *)
Theorem existence_check_wraps_answers :
  forall (L : library) (op : operation) (p key : string) (token : pyval)
         (env : arguments) (rt : runtime) (ids : list pyval)
         (answer : pyval -> bool),
    In (op, p, key) existence_checks ->
    env p = PyList ids ->
    delegated L op token env
    = Return (PyList (map (fun id => PyBool (answer id)) ids)) ->
    exists bs,
      result_of (run L op token env rt)
      = Return (PyDict [(key, PyList (map PyBool bs))]) /\
      (key = "saved" \/ key = "following") /\
      length bs = length ids /\
      (forall i id, nth_error ids i = Some id ->
                    nth_error bs i = Some (answer id)) /\
      forwarded_as (tool_of op) env p p.
Proof.
  intros L op p key tok env rt ids answer Hin Henv Hd.
  exists (map answer ids). rewrite run_result, Hd.
  assert (Hw : returns (tool_of op) = Wrapped key).
  { simpl in Hin.
    repeat (destruct Hin as [Hin|Hin]; [inversion Hin; subst; reflexivity|]).
    contradiction. }
  rewrite Hw. simpl. rewrite map_map. split; [reflexivity|].
  split.
  { simpl in Hin.
    repeat (destruct Hin as [Hin|Hin]; [inversion Hin; subst; auto|]).
    contradiction. }
  split; [apply length_map|]. split.
  - intros i id Hi. rewrite nth_error_map, Hi. reflexivity.
  - apply forwards_sound.
    + intros q Hq. rewrite plain_operations in Hq; [contradiction|].
      simpl in Hin.
      repeat (destruct Hin as [Hin|Hin]; [inversion Hin; subst; discriminate|]).
      contradiction.
    + simpl in Hin.
      repeat (destruct Hin as [Hin|Hin]; [inversion Hin; subst; reflexivity|]).
      contradiction.
Qed.

Lemma existence_check_wraps_answers_witness :
  exists bs,
    result_of (run checking check_current_user_saved_tracks token
                 (with_argument "tracks" (PyList [PyStr "id1"; PyStr "id2"]))
                 fresh_runtime)
    = Return (PyDict [("saved", PyList (map PyBool bs))]) /\
    ("saved" = "saved" \/ "saved" = "following") /\
    length bs = length [PyStr "id1"; PyStr "id2"] /\
    (forall i id, nth_error [PyStr "id1"; PyStr "id2"] i = Some id ->
                  nth_error bs i = Some (saved id)) /\
    forwarded_as (tool_of check_current_user_saved_tracks)
      (with_argument "tracks" (PyList [PyStr "id1"; PyStr "id2"]))
      "tracks" "tracks".
Proof.
  apply (existence_check_wraps_answers checking check_current_user_saved_tracks
           "tracks" "saved" token
           (with_argument "tracks" (PyList [PyStr "id1"; PyStr "id2"]))
           fresh_runtime [PyStr "id1"; PyStr "id2"] saved).
  - simpl. tauto.
  - reflexivity.
  - reflexivity.
Defined.

(** The scenario of the specification: [id1] is saved, [id2] is not. *)
Example check_current_user_saved_tracks_scenario :
  result_of (run checking check_current_user_saved_tracks token
               (with_argument "tracks" (PyList [PyStr "id1"; PyStr "id2"]))
               fresh_runtime)
  = Return (PyDict [("saved", PyList [PyBool true; PyBool false])]).
Proof. reflexivity. Qed.

(** ** Forwarding of parameters *)




(** A search forwards its query under [q], with the item type written in
    the tool. *)
Example search_artists_call :
  prepare (tool_of search_artists)
    (frame [("query", PyStr "daft punk"); ("limit", PyInt 10);
            ("offset", PyInt 0)])
  = Return {| method := "search";
              positional := [];
              keywords := [("q", PyStr "daft punk"); ("type", PyStr "artist");
                           ("limit", PyInt 10); ("offset", PyInt 0)] |}.
Proof. reflexivity. Qed.

(** ** One client, one call, no state *)

(** C7, as stated, fails.  When the constructor raises, the invocation
    builds no client and makes no call; when [get_playlist_items] cannot
    split its [additional_types], a client is built but no call is
    made.  Neither run has one client and one call in its trace. *)
Lemma one_client_one_call_counterexample :
  ~ one_client_one_call (rejecting unauthorized) get_album_info token
      (with_argument "album_id" (PyStr "4aawyAB9vmqN3uQ7FjRGTy"))
      fresh_runtime /\
  trace (runtime_of
           (run (rejecting unauthorized) get_album_info token
              (with_argument "album_id" (PyStr "4aawyAB9vmqN3uQ7FjRGTy"))
              fresh_runtime)) = [] /\
  ~ one_client_one_call (answering (Return image)) get_playlist_items token
      (with_argument "additional_types" (PyInt 5)) fresh_runtime /\
  trace (runtime_of
           (run (answering (Return image)) get_playlist_items token
              (with_argument "additional_types" (PyInt 5)) fresh_runtime))
  = [Constructed {| client_id := 0; auth := token |}].
Proof.
  split; [|split; [reflexivity|split; [|reflexivity]]].
  - intros [m H]. vm_compute in H. discriminate.
  - intros [m H]. vm_compute in H. discriminate.
Qed.

(** C7, amended.  An invocation adds to the trace nothing, one client,
    or one client followed by one call through that client, and nothing
    else: nothing when the constructor raises, the client alone when an
    argument cannot be prepared, client and call when the constructor
    returns and the arguments are prepared, which they are whenever the
    argument that is split is a string.  The client has a new identity
    and the supplied token as credential.  The module's globals are left
    as they were and the result does not depend on the runtime the
    invocation starts in, so nothing kept from an earlier invocation is
    used. *)
Theorem invocation_at_most_one_call :
  forall (L : library) (op : operation) (token : pyval) (env : arguments)
         (rt : runtime),
    let c := {| client_id := next_object rt; auth := token |} in
    let rt' := runtime_of (run L op token env rt) in
    exists evs,
      trace rt' = (trace rt ++ evs)%list /\
      (evs = [] \/ evs = [Constructed c]
       \/ exists m, evs = [Constructed c; Called c m]) /\
      (forall e, Spotify_init L token = Some e -> evs = []) /\
      (forall e, Spotify_init L token = None ->
                 prepare (tool_of op) env = Raise e ->
                 evs = [Constructed c]) /\
      (forall m, Spotify_init L token = None ->
                 prepare (tool_of op) env = Return m ->
                 evs = [Constructed c; Called c m]) /\
      (Spotify_init L token = None ->
       strings_where_split (tool_of op) env ->
       exists m,
         prepare (tool_of op) env = Return m /\
         evs = [Constructed c; Called c m] /\
         calls_of (trace rt') = (calls_of (trace rt) ++ [(c, m)])%list) /\
      module_globals rt' = module_globals rt /\
      (allocator_ahead rt ->
       (forall c', In (Constructed c') (trace rt) ->
                   client_id c' <> client_id c) /\
       allocator_ahead rt') /\
      (forall rt2, result_of (run L op token env rt2)
                   = result_of (run L op token env rt)).
Proof.
  intros L op tok env rt c rt'.
  assert (Hres : forall rt2, result_of (run L op tok env rt2)
                             = result_of (run L op tok env rt))
    by (intros rt2; now rewrite !run_result).
  assert (Hfresh : allocator_ahead rt ->
            forall c', In (Constructed c') (trace rt) ->
                       client_id c' <> client_id c).
  { intros Ha c' Hc'. apply Ha in Hc'. simpl. lia. }
  assert (Hrt : rt' = runtime_of (run L op tok env rt)) by reflexivity.
  clearbody rt'. rewrite run_cases in Hrt. fold c in Hrt.
  unfold runtime_of in Hrt.
  destruct (Spotify_init L tok) as [e0|] eqn:Hi.
  - simpl in Hrt. subst rt'. exists []. rewrite app_nil_r.
    split; [reflexivity|]. split; [now left|].
    split; [reflexivity|]. split; [intros; discriminate|].
    split; [intros; discriminate|]. split; [intros; discriminate|].
    split; [reflexivity|]. split; [|exact Hres].
    intros Ha. split; [now apply Hfresh | exact Ha].
  - destruct (prepare (tool_of op) env) as [m|e0] eqn:Hp;
      unfold log in Hrt; simpl in Hrt; subst rt'; simpl.
    + exists [Constructed c; Called c m]. rewrite <- app_assoc. simpl.
      split; [reflexivity|]. split; [right; right; now exists m|].
      split; [intros; discriminate|]. split; [intros; discriminate|].
      split; [intros m' _ Hm'; congruence|].
      split; [intros _ _; exists m; rewrite calls_of_app; auto|].
      split; [reflexivity|]. split; [|exact Hres].
      intros Ha. split; [now apply Hfresh|].
      intros c' Hc'. simpl in *.
      apply in_app_or in Hc' as [Hc'|[Hc'|[Hc'|[]]]]; try discriminate.
      * apply Ha in Hc'. lia.
      * inversion Hc'; subst c'. simpl. lia.
    + exists [Constructed c].
      split; [reflexivity|]. split; [right; now left|].
      split; [intros; discriminate|]. split; [reflexivity|].
      split; [intros; discriminate|].
      split.
      { intros _ Hs. destruct (prepare_total env (tool_of op) Hs)
          as [m [Hm _]]. congruence. }
      split; [reflexivity|]. split; [|exact Hres].
      intros Ha. split; [now apply Hfresh|].
      intros c' Hc'. simpl in *.
      apply in_app_or in Hc' as [Hc'|[Hc'|[]]].
      * apply Ha in Hc'. lia.
      * inversion Hc'; subst c'. simpl. lia.
Qed.

(** Two invocations in a row: the second builds its own client. *)
Example consecutive_invocations :
  trace (runtime_of
           (run (answering (Return features)) get_devices token no_arguments
              (runtime_of
                 (run (answering (Return features)) get_queue token
                    no_arguments fresh_runtime))))
  = [Constructed {| client_id := 0; auth := token |};
     Called {| client_id := 0; auth := token |}
       {| method := "queue"; positional := []; keywords := [] |};
     Constructed {| client_id := 1; auth := token |};
     Called {| client_id := 1; auth := token |}
       {| method := "devices"; positional := []; keywords := [] |}].
Proof. reflexivity. Qed.

(** C8.  With the remote side a fixed function of the credential and the
    call, running a tool again with the same token and arguments, in the
    runtime the first run left behind or in any other, gives the same
    result, and the module's globals are what they were before the first
    run. *)
Theorem repeated_invocation_same_result :
  forall (L : library) (op : operation) (token : pyval) (env : arguments)
         (rt : runtime),
    let first := run L op token env rt in
    let second := run L op token env (runtime_of first) in
    result_of second = result_of first /\
    module_globals (runtime_of second) = module_globals rt /\
    (forall rt', result_of (run L op token env rt') = result_of first).
Proof.
  intros L op tok env rt first second. subst first second.
  split; [|split].
  - rewrite (run_result L op tok env rt).
    apply run_result.
  - rewrite run_globals. apply run_globals.
  - intros rt'. rewrite (run_result L op tok env rt).
    apply run_result.
Qed.

(** ** Placeholders and rewraps *)

(** C9, as stated, fails.  [playlist_cover_image] is not one of the four
    placeholder tools, yet it does not hand [None] back unchanged: it
    returns [{"images": None}]. *)
Lemma others_unchanged_counterexample :
  (forall key, ~ In (playlist_cover_image, key) placeholder_operations) /\
  delegated (answering (Return PyNone)) playlist_cover_image token
    (with_argument "playlist_id" playlist) = Return PyNone /\
  result_of (run (answering (Return PyNone)) playlist_cover_image token
               (with_argument "playlist_id" playlist) fresh_runtime)
  <> Return PyNone.
Proof.
  split; [|split].
  - intros key H. simpl in H.
    repeat (destruct H as [H|H]; [discriminate|]). contradiction.
  - reflexivity.
  - vm_compute. discriminate.
Qed.

(** C9, amended.  The four tools [get_audio_features],
    [get_current_playback], [get_current_user_playing_track] and
    [get_currently_playing], and no others, test the response for truth:
    a falsy one ([None], [{}], [[]]) gives their placeholder, a truthy
    one is returned as it is.  The eight rewrapping tools return the
    response under their key whatever it is.  Every remaining tool
    returns the response unchanged, [None] included. *)
Theorem placeholder_by_truthiness :
  forall (L : library) (op : operation) (token : pyval) (env : arguments)
         (rt : runtime) (r : pyval),
    delegated L op token env = Return r ->
    (forall key, In (op, key) placeholder_operations ->
       (In op [get_audio_features; get_current_playback;
               get_current_user_playing_track; get_currently_playing]) /\
       result_of (run L op token env rt)
       = Return (if truthy r then r else single key PyNone)) /\
    (forall key, In (op, key) rewrap_operations ->
       result_of (run L op token env rt) = Return (single key r)) /\
    ((forall key, ~ In (op, key) placeholder_operations) ->
     (forall key, ~ In (op, key) rewrap_operations) ->
     result_of (run L op token env rt) = Return r) /\
    (In op [get_audio_features; get_current_playback;
            get_current_user_playing_track; get_currently_playing] ->
     exists key, In (op, key) placeholder_operations) /\
    truthy PyNone = false /\ truthy (PyDict []) = false /\
    truthy (PyList []) = false.
Proof.
  intros L op tok env rt r Hd. rewrite run_result, Hd.
  split; [|split; [|split; [|split]]].
  - intros key Hin. split.
    + simpl in Hin. simpl.
      repeat (destruct Hin as [Hin|Hin]; [inversion Hin; subst; tauto|]).
      contradiction.
    + apply placeholder_operations_spec in Hin. now rewrite Hin.
  - intros key Hin. apply rewrap_operations_spec in Hin. now rewrite Hin.
  - intros Hp Hw. now rewrite (passthrough_operations_spec op Hp Hw).
  - simpl. intros H.
    repeat (destruct H as [H|H]; [subst; eexists; simpl; eauto 6|]).
    contradiction.
  - repeat split.
Qed.

Lemma placeholder_by_truthiness_witness :
  (forall key, In (get_devices, key) placeholder_operations ->
     (In get_devices [get_audio_features; get_current_playback;
                      get_current_user_playing_track; get_currently_playing]) /\
     result_of (run (answering (Return PyNone)) get_devices token no_arguments
                  fresh_runtime)
     = Return (if truthy PyNone then PyNone else single key PyNone)) /\
  (forall key, In (get_devices, key) rewrap_operations ->
     result_of (run (answering (Return PyNone)) get_devices token no_arguments
                  fresh_runtime) = Return (single key PyNone)) /\
  ((forall key, ~ In (get_devices, key) placeholder_operations) ->
   (forall key, ~ In (get_devices, key) rewrap_operations) ->
   result_of (run (answering (Return PyNone)) get_devices token no_arguments
                fresh_runtime) = Return PyNone) /\
  (In get_devices [get_audio_features; get_current_playback;
                   get_current_user_playing_track; get_currently_playing] ->
   exists key, In (get_devices, key) placeholder_operations) /\
  truthy PyNone = false /\ truthy (PyDict []) = false /\
  truthy (PyList []) = false.
Proof.
  apply (placeholder_by_truthiness (answering (Return PyNone)) get_devices
           token no_arguments fresh_runtime PyNone).
  reflexivity.
Defined.

(** [get_devices] and [get_queue] hand [None] back. *)
Example get_devices_none :
  result_of (run (answering (Return PyNone)) get_devices token no_arguments
               fresh_runtime) = Return PyNone.
Proof. reflexivity. Qed.

Example get_queue_none :
  result_of (run (answering (Return PyNone)) get_queue token no_arguments
               fresh_runtime) = Return PyNone.
Proof. reflexivity. Qed.

(** C10.  Whatever [playlist_cover_image] gets back from the call, [None]
    and the empty list included, it returns it under the key ["images"]:
    never the response itself, and with [None] under the key only when
    the response was [None]. *)
Theorem cover_image_always_rewrapped :
  forall (L : library) (token : pyval) (env : arguments) (rt : runtime)
         (r : pyval),
    delegated L playlist_cover_image token env = Return r ->
    result_of (run L playlist_cover_image token env rt)
    = Return (PyDict [("images", r)]) /\
    result_of (run L playlist_cover_image token env rt) <> Return r /\
    (result_of (run L playlist_cover_image token env rt)
     = Return (PyDict [("images", PyNone)]) -> r = PyNone).
Proof.
  intros L tok env rt r Hd. rewrite run_result, Hd. simpl.
  split; [reflexivity|]. split.
  - intros H. inversion H as [H']. now apply (single_not_itself "images" r).
  - intros H. now inversion H.
Qed.

Lemma cover_image_always_rewrapped_witness :
  result_of (run (answering (Return (PyList []))) playlist_cover_image token
               (with_argument "playlist_id" playlist) fresh_runtime)
  = Return (PyDict [("images", PyList [])]) /\
  result_of (run (answering (Return (PyList []))) playlist_cover_image token
               (with_argument "playlist_id" playlist) fresh_runtime)
  <> Return (PyList []) /\
  (result_of (run (answering (Return (PyList []))) playlist_cover_image token
                (with_argument "playlist_id" playlist) fresh_runtime)
   = Return (PyDict [("images", PyNone)]) -> PyList [] = PyNone).
Proof.
  apply (cover_image_always_rewrapped (answering (Return (PyList [])))
           token (with_argument "playlist_id" playlist) fresh_runtime
           (PyList [])).
  reflexivity.
Defined.

(** ** Splitting at commas *)

Section Split.

Variable sep : ascii.

Lemma split_nonempty (s : string) : split sep s <> [].
Proof.
  destruct s as [|c s]; simpl; [discriminate|].
  destruct (Ascii.eqb c sep); [discriminate|].
  destruct (split sep s); discriminate.
Qed.

(** Joining the pieces with the separator gives the string back. *)
Lemma join_split (s : string) :
  join (String sep EmptyString) (split sep s) = s.
Proof.
  induction s as [|c s IH]; simpl; [reflexivity|].
  destruct (Ascii.eqb_spec c sep) as [->|Hc].
  - pose proof (split_nonempty s) as Hne.
    destruct (split sep s) as [|piece pieces]; [now destruct Hne|].
    exact (f_equal (String sep) IH).
  - pose proof (split_nonempty s) as Hne.
    destruct (split sep s) as [|piece pieces]; [now destruct Hne|].
    destruct pieces as [|piece' pieces]; exact (f_equal (String c) IH).
Qed.

(** No piece contains the separator. *)
Lemma split_pieces_clean (s : string) :
  Forall (fun piece => count_char sep piece = 0) (split sep s).
Proof.
  induction s as [|c s IH]; simpl.
  - repeat constructor.
  - destruct (Ascii.eqb c sep) eqn:Hc.
    + constructor; [reflexivity | exact IH].
    + destruct (split sep s) as [|piece pieces].
      * constructor; [simpl; now rewrite Hc | constructor].
      * inversion IH; subst. constructor; [|assumption].
        simpl. now rewrite Hc.
Qed.

(** There is one piece more than there are separators. *)
Lemma length_split (s : string) :
  length (split sep s) = S (count_char sep s).
Proof.
  induction s as [|c s IH]; simpl; [reflexivity|].
  destruct (Ascii.eqb c sep).
  - simpl. now rewrite IH.
  - destruct (split sep s) as [|piece pieces]; simpl in *; [discriminate|].
    exact IH.
Qed.

End Split.

(** X1.  [get_playlist_items] called with a non-empty string for
    [additional_types] forwards a tuple of strings that loses nothing:
    joined with commas the pieces give the string back, no piece contains
    a comma, and there is one piece more than there are commas, so that a
    string without comma is forwarded as a one-element tuple.  Nothing is
    stripped or dropped, empty pieces and blanks included. *)
Theorem additional_types_round_trip :
  forall (env : arguments) (s : string),
    env "additional_types" = PyStr s ->
    s <> "" ->
    exists m pieces,
      prepare (tool_of get_playlist_items) env = Return m /\
      assoc "additional_types" (keywords m)
      = Some (PyTuple (map PyStr pieces)) /\
      join "," pieces = s /\
      Forall (fun piece => count_char comma piece = 0) pieces /\
      length pieces = S (count_char comma s) /\
      (count_char comma s = 0 -> pieces = [s]).
Proof.
  intros env s Hs Hne.
  exists {| method := "playlist_items";
            positional := [env "playlist_id"];
            keywords := [("fields", env "fields"); ("limit", env "limit");
                         ("offset", env "offset"); ("market", env "market");
                         ("additional_types",
                          PyTuple (map PyStr (split comma s)))] |}.
  exists (split comma s).
  assert (Ht : truthy (PyStr s) = true).
  { simpl. destruct s; [now destruct Hne | reflexivity]. }
  split.
  - unfold prepare. cbn [tool_of args kwargs target eval_args eval_kwargs
                          eval_arg].
    rewrite Hs, Ht. reflexivity.
  - split; [reflexivity|]. split; [apply (join_split comma)|].
    split; [apply split_pieces_clean|]. split; [apply length_split|].
    intros H0. pose proof (length_split comma s) as Hl.
    pose proof (join_split comma s) as Hj. rewrite H0 in Hl.
    destruct (split comma s) as [|piece [|piece' pieces]];
      try discriminate.
    simpl in Hj. now subst.
Qed.

Lemma additional_types_round_trip_witness :
  exists m pieces,
    prepare (tool_of get_playlist_items)
      (Sample.with_argument "additional_types" (PyStr "track, episode,")) 
    = Return m /\
    assoc "additional_types" (keywords m)
    = Some (PyTuple (map PyStr pieces)) /\
    join "," pieces = "track, episode," /\
    Forall (fun piece => count_char comma piece = 0) pieces /\
    length pieces = S (count_char comma "track, episode,") /\
    (count_char comma "track, episode," = 0 -> pieces = ["track, episode,"]).
Proof.
  apply (additional_types_round_trip
           (Sample.with_argument "additional_types" (PyStr "track, episode,"))
           "track, episode,").
  - reflexivity.
  - discriminate.
Defined.

Example additional_types_blanks_kept :
  prepare (tool_of get_playlist_items)
    (Sample.with_argument "additional_types" (PyStr "track, episode,"))
  = Return {| method := "playlist_items";
              positional := [PyNone];
              keywords := [("fields", PyNone); ("limit", PyNone);
                           ("offset", PyNone); ("market", PyNone);
                           ("additional_types",
                            PyTuple [PyStr "track"; PyStr " episode";
                                     PyStr ""])] |}.
Proof. reflexivity. Qed.

(** X2.  When [additional_types] is truthy but not a string,
    [get_playlist_items] fails on [.split] after the client was built:
    the handler reports the [AttributeError] under the tool's prefix and
    no call reaches the client. *)
Theorem additional_types_not_a_string :
  forall (L : library) (token : pyval) (env : arguments) (rt : runtime),
    Spotify_init L token = None ->
    truthy (env "additional_types") = true ->
    (forall s, env "additional_types" <> PyStr s) ->
    run L get_playlist_items token env rt
    = (Return (PyDict [("error",
         PyStr ("Failed to get playlist items: '"
                ++ type_name (env "additional_types")
                ++ "' object has no attribute 'split'"))]),
       {| module_globals := module_globals rt;
          next_object := S (next_object rt);
          trace := trace rt
                   ++ [Constructed {| client_id := next_object rt;
                                      auth := token |}] |}) /\
    calls_of (trace (runtime_of (run L get_playlist_items token env rt)))
    = calls_of (trace rt).
Proof.
  intros L tok env rt Hinit Ht Hns.
  assert (Hrun : run L get_playlist_items tok env rt
    = (Return (PyDict [("error",
         PyStr ("Failed to get playlist items: '"
                ++ type_name (env "additional_types")
                ++ "' object has no attribute 'split'"))]),
       {| module_globals := module_globals rt;
          next_object := S (next_object rt);
          trace := trace rt
                   ++ [Constructed {| client_id := next_object rt;
                                      auth := tok |}] |})).
  { unfold run, try_except, bind, get_spotify_client, Spotify, lift,
      call_method, ret, log, prepare.
    rewrite Hinit.
    cbn [tool_of args kwargs target eval_args eval_kwargs eval_arg].
    rewrite Ht.
    destruct (env "additional_types") as [| | | |s| | |] eqn:E;
      try reflexivity.
    now destruct (Hns s). }
  split; [exact Hrun|].
  rewrite Hrun. unfold runtime_of. simpl.
  rewrite calls_of_app. simpl. apply app_nil_r.
Qed.

Lemma additional_types_not_a_string_witness :
  run (Sample.answering (Return Sample.image)) get_playlist_items Sample.token
    (Sample.with_argument "additional_types"
       (PyList [PyStr "track"; PyStr "episode"])) fresh_runtime
  = (Return (PyDict [("error",
       PyStr ("Failed to get playlist items: '"
              ++ type_name (Sample.with_argument "additional_types"
                              (PyList [PyStr "track"; PyStr "episode"])
                              "additional_types")
              ++ "' object has no attribute 'split'"))]),
     {| module_globals := module_globals fresh_runtime;
        next_object := S (next_object fresh_runtime);
        trace := trace fresh_runtime
                 ++ [Constructed {| client_id := next_object fresh_runtime;
                                    auth := Sample.token |}] |}) /\
  calls_of (trace (runtime_of
     (run (Sample.answering (Return Sample.image)) get_playlist_items
        Sample.token
        (Sample.with_argument "additional_types"
           (PyList [PyStr "track"; PyStr "episode"])) fresh_runtime)))
  = calls_of (trace fresh_runtime).
Proof.
  apply (additional_types_not_a_string
           (Sample.answering (Return Sample.image)) Sample.token
           (Sample.with_argument "additional_types"
              (PyList [PyStr "track"; PyStr "episode"])) fresh_runtime).
  - reflexivity.
  - reflexivity.
  - intros s. vm_compute. discriminate.
Defined.

(** X3.  A falsy [additional_types] ([None], the empty string) makes
    [get_playlist_items] behave exactly as the default ["track,episode"]
    does: same call, same result, same runtime. *)
Theorem additional_types_falsy_is_default :
  forall (L : library) (token : pyval) (env : arguments) (rt : runtime),
    truthy (env "additional_types") = false ->
    prepare (tool_of get_playlist_items) env
    = prepare (tool_of get_playlist_items)
        (update env "additional_types" (PyStr "track,episode")) /\
    run L get_playlist_items token env rt
    = run L get_playlist_items token
        (update env "additional_types" (PyStr "track,episode")) rt.
Proof.
  intros L tok env rt Ht.
  assert (Hp : prepare (tool_of get_playlist_items) env
               = prepare (tool_of get_playlist_items)
                   (update env "additional_types" (PyStr "track,episode"))).
  { unfold prepare, update.
    cbn [tool_of args kwargs target eval_args eval_kwargs eval_arg].
    rewrite Ht. reflexivity. }
  split; [exact Hp|].
  unfold run. now rewrite Hp.
Qed.

Lemma additional_types_falsy_is_default_witness :
  prepare (tool_of get_playlist_items)
    (Sample.with_argument "playlist_id" Sample.playlist)
  = prepare (tool_of get_playlist_items)
      (update (Sample.with_argument "playlist_id" Sample.playlist)
         "additional_types" (PyStr "track,episode")) /\
  run (Sample.answering (Return Sample.image)) get_playlist_items Sample.token
    (Sample.with_argument "playlist_id" Sample.playlist) fresh_runtime
  = run (Sample.answering (Return Sample.image)) get_playlist_items
      Sample.token
      (update (Sample.with_argument "playlist_id" Sample.playlist)
         "additional_types" (PyStr "track,episode")) fresh_runtime.
Proof.
  apply (additional_types_falsy_is_default
           (Sample.answering (Return Sample.image)) Sample.token
           (Sample.with_argument "playlist_id" Sample.playlist) fresh_runtime).
  reflexivity.
Defined.

(** ** The shape of the prepared call *)

Section CallShape.

Variable env : arguments.

Lemma eval_args_length (l : list argexpr) (vs : list pyval) :
  eval_args env l = Return vs -> length vs = length l.
Proof.
  revert vs. induction l as [|a l IH]; simpl; intros vs H.
  - now inversion H.
  - destruct (eval_arg env a) as [v|e]; [|discriminate].
    destruct (eval_args env l) as [ws|e]; [|discriminate].
    inversion H; subst. simpl. now rewrite (IH ws).
Qed.

Lemma eval_kwargs_names (l : list (string * argexpr))
    (vs : list (string * pyval)) :
  eval_kwargs env l = Return vs -> map fst vs = map fst l.
Proof.
  revert vs. induction l as [|[k a] l IH]; simpl; intros vs H.
  - now inversion H.
  - destruct (eval_arg env a) as [v|e]; [|discriminate].
    destruct (eval_kwargs env l) as [ws|e]; [|discriminate].
    inversion H; subst. simpl. now rewrite (IH ws).
Qed.

End CallShape.

(** X4.  Whatever the argument values, a prepared call names the tool's
    client method, carries the tool's keywords in the order written (an
    optional parameter left at [None] is still passed), and has exactly
    one argument per parameter of the tool, one more for the four
    type-specific searches, which add the item type. *)
Theorem call_arity :
  forall (op : operation) (env : arguments) (m : call),
    prepare (tool_of op) env = Return m ->
    method m = target (tool_of op) /\
    map fst (keywords m) = map fst (kwargs (tool_of op)) /\
    length (positional m) + length (keywords m)
    = length (parameters (tool_of op))
      + (if existsb (operation_beq op) (map fst type_specific_searches)
         then 1 else 0).
Proof.
  intros op env m H. unfold prepare in H.
  destruct (eval_args env (args (tool_of op))) as [pos|e] eqn:Ea;
    [|discriminate].
  destruct (eval_kwargs env (kwargs (tool_of op))) as [kws|e] eqn:Ek;
    [|discriminate].
  inversion H; subst; clear H. simpl.
  split; [reflexivity|]. split; [now apply eval_kwargs_names with env|].
  rewrite (eval_args_length env _ _ Ea).
  rewrite <- (length_map fst kws), (eval_kwargs_names env _ _ Ek), length_map.
  assert (C : forallb (fun o =>
      Nat.eqb (length (args (tool_of o)) + length (kwargs (tool_of o)))
              (length (parameters (tool_of o))
               + (if existsb (operation_beq o) (map fst type_specific_searches)
                  then 1 else 0))) all_operations = true)
    by (vm_compute; reflexivity).
  apply Nat.eqb_eq. exact (for_all_operations _ C op).
Qed.

Lemma call_arity_witness :
  method {| method := "search"; positional := [];
            keywords := [("q", PyStr "daft punk"); ("type", PyStr "artist");
                         ("limit", PyInt 10); ("offset", PyInt 0)] |}
  = target (tool_of search_artists) /\
  map fst (keywords
             {| method := "search"; positional := [];
                keywords := [("q", PyStr "daft punk"); ("type", PyStr "artist");
                             ("limit", PyInt 10); ("offset", PyInt 0)] |})
  = map fst (kwargs (tool_of search_artists)) /\
  length (positional
            {| method := "search"; positional := [];
               keywords := [("q", PyStr "daft punk"); ("type", PyStr "artist");
                            ("limit", PyInt 10); ("offset", PyInt 0)] |})
  + length (keywords
              {| method := "search"; positional := [];
                 keywords := [("q", PyStr "daft punk");
                              ("type", PyStr "artist");
                              ("limit", PyInt 10); ("offset", PyInt 0)] |})
  = length (parameters (tool_of search_artists))
    + (if existsb (operation_beq search_artists)
            (map fst type_specific_searches)
       then 1 else 0).
Proof.
  apply (call_arity search_artists
           (frame [("query", PyStr "daft punk"); ("limit", PyInt 10);
                   ("offset", PyInt 0)])).
  reflexivity.
Defined.

(** X5.  Each of [search_tracks], [search_artists], [search_albums] and
    [search_playlists] makes the call [search_general] makes when given
    that item type: the same method, no positional argument, and the same
    value under every keyword except [market], which the type-specific
    search does not pass and [search_general] does. *)
Theorem type_specific_search_is_general_search :
  forall (op : operation) (ty : string) (env : arguments),
    In (op, ty) type_specific_searches ->
    exists m1 m2,
      prepare (tool_of op) env = Return m1 /\
      prepare (tool_of search_general) (update env "type" (PyStr ty))
      = Return m2 /\
      method m1 = "search" /\ method m2 = "search" /\
      positional m1 = [] /\ positional m2 = [] /\
      (forall k, k <> "market" ->
                 assoc k (keywords m1) = assoc k (keywords m2)) /\
      assoc "market" (keywords m1) = None /\
      assoc "market" (keywords m2) = Some (env "market").
Proof.
  intros op ty env Hin.
  exists {| method := "search"; positional := [];
            keywords := [("q", env "query"); ("type", PyStr ty);
                         ("limit", env "limit"); ("offset", env "offset")] |}.
  exists {| method := "search"; positional := [];
            keywords := [("q", env "query"); ("limit", env "limit");
                         ("offset", env "offset"); ("type", PyStr ty);
                         ("market", env "market")] |}.
  split.
  { simpl in Hin.
    repeat (destruct Hin as [Hin|Hin]; [inversion Hin; subst; reflexivity|]).
    contradiction. }
  split; [reflexivity|].
  repeat (split; [reflexivity|]).
  split; [|split; reflexivity].
  intros k Hk. cbn [assoc keywords].
  destruct (String.eqb_spec "q" k) as [<-|Hq]; [reflexivity|].
  destruct (String.eqb_spec "type" k) as [<-|Ht]; [reflexivity|].
  destruct (String.eqb_spec "limit" k) as [<-|Hl]; [reflexivity|].
  destruct (String.eqb_spec "offset" k) as [<-|Ho]; [reflexivity|].
  destruct (String.eqb_spec "market" k) as [<-|Hm]; [now destruct Hk|].
  reflexivity.
Qed.

Lemma type_specific_search_is_general_search_witness :
  exists m1 m2,
    prepare (tool_of search_albums)
      (frame [("query", PyStr "discovery"); ("limit", PyInt 10);
              ("offset", PyInt 0)]) = Return m1 /\
    prepare (tool_of search_general)
      (update (frame [("query", PyStr "discovery"); ("limit", PyInt 10);
                      ("offset", PyInt 0)]) "type" (PyStr "album"))
    = Return m2 /\
    method m1 = "search" /\ method m2 = "search" /\
    positional m1 = [] /\ positional m2 = [] /\
    (forall k, k <> "market" ->
               assoc k (keywords m1) = assoc k (keywords m2)) /\
    assoc "market" (keywords m1) = None /\
    assoc "market" (keywords m2)
    = Some (frame [("query", PyStr "discovery"); ("limit", PyInt 10);
                   ("offset", PyInt 0)] "market").
Proof.
  apply (type_specific_search_is_general_search search_albums "album"
           (frame [("query", PyStr "discovery"); ("limit", PyInt 10);
                   ("offset", PyInt 0)])).
  simpl. tauto.
Defined.

(** X6.  No two tools wrap the same client method, except the five
    searches, which all call [search]. *)
Theorem one_tool_per_method :
  forall (a b : operation),
    target (tool_of a) = target (tool_of b) ->
    a = b \/
    (In a search_family /\ In b search_family
     /\ target (tool_of a) = "search").
Proof.
  intros a b H.
  assert (C : forallb (fun x => forallb (fun y =>
      implb (target (tool_of x) =? target (tool_of y))
        (operation_beq x y
         || (existsb (operation_beq x) search_family
             && existsb (operation_beq y) search_family
             && (target (tool_of x) =? "search"))))
      all_operations) all_operations = true)
    by (vm_compute; reflexivity).
  rewrite forallb_forall in C. specialize (C a (all_operations_complete a)).
  rewrite forallb_forall in C. specialize (C b (all_operations_complete b)).
  rewrite H, String.eqb_refl in C. cbn [implb] in C.
  apply orb_true_iff in C as [C|C].
  - left. now apply operation_beq_eq.
  - right. apply andb_true_iff in C as [C Cs].
    apply andb_true_iff in C as [Ca Cb].
    apply existsb_exists in Ca as [x [Hx Ex]].
    apply existsb_exists in Cb as [y [Hy Ey]].
    apply operation_beq_eq in Ex, Ey. subst x y.
    apply String.eqb_eq in Cs. rewrite <- H in Cs. auto.
Qed.

Lemma one_tool_per_method_witness :
  search_tracks = search_general \/
  (In search_tracks search_family /\ In search_general search_family
   /\ target (tool_of search_tracks) = "search").
Proof.
  apply (one_tool_per_method search_tracks search_general).
  reflexivity.
Defined.

(** ** Defaults *)

Lemma bind_parameters_lookup (ps : list (string * option pyval))
    (supplied bound : list (string * pyval)) (p : string)
    (d : option pyval) :
  bind_parameters ps supplied = Some bound ->
  assoc p ps = Some d ->
  assoc p bound
  = match assoc p supplied with Some v => Some v | None => d end.
Proof.
  revert bound. induction ps as [|[p' d'] ps IH]; simpl; intros bound Hb Hp.
  - discriminate.
  - destruct (match assoc p' supplied with Some v => Some v | None => d' end)
      as [v|] eqn:Ev; [|discriminate].
    destruct (bind_parameters ps supplied) as [rest|]; [|discriminate].
    inversion Hb; subst; clear Hb. simpl.
    destruct (String.eqb_spec p' p) as [->|Hne].
    + inversion Hp; subst. now rewrite <- Ev.
    + now apply IH.
Qed.

Lemma bind_parameters_defined (ps : list (string * option pyval))
    (supplied : list (string * pyval)) :
  (forall p, In (p, None) ps -> exists v, assoc p supplied = Some v) ->
  exists bound, bind_parameters ps supplied = Some bound.
Proof.
  induction ps as [|[p d] ps IH]; simpl; intros H.
  - now exists [].
  - destruct IH as [rest Hrest]; [intros q Hq; apply H; now right|].
    rewrite Hrest.
    destruct (assoc p supplied) as [v|] eqn:Es; [eauto|].
    destruct d as [d|]; [eauto|].
    destruct (H p) as [v Hv]; [now left|]. congruence.
Qed.

Lemma assoc_in_names {A : Type} (p : string) (d : A)
    (ps : list (string * A)) :
  assoc p ps = Some d -> In p (map fst ps).
Proof.
  induction ps as [|[p' d'] ps IH]; simpl; [discriminate|].
  destruct (String.eqb_spec p' p) as [->|Hne]; auto.
Qed.

(** Every parameter is read by an argument expression of the call, but
    for the one that is split. *)
Lemma forwards_table (op : operation) (p : string) :
  In p (parameter_names op) ->
  op <> get_playlist_items ->
  forwards (tool_of op) p (forwarded_name p) = true.
Proof.
  intros Hin Hne.
  assert (C : forallb (fun o => forallb (fun q =>
                operation_beq o get_playlist_items
                || forwards (tool_of o) q (forwarded_name q))
                (parameter_names o)) all_operations = true)
    by (vm_compute; reflexivity).
  rewrite forallb_forall in C. specialize (C op (all_operations_complete op)).
  rewrite forallb_forall in C. specialize (C p Hin).
  apply orb_true_iff in C as [C|C]; [|exact C].
  apply operation_beq_eq in C. now destruct Hne.
Qed.

(** X7.  A host call that supplies the required parameters enters the
    body with every supplied value bound as given and every omitted
    optional parameter bound to the default of the signature; and the
    tool passes that default on to the client explicitly rather than
    leaving the argument out. *)
Theorem omitted_parameters_take_defaults :
  forall (L : library) (op : operation) (token : pyval)
         (supplied : list (string * pyval)),
    well_formed_call op supplied ->
    exists bound,
      invoke L op token supplied = Some (run L op token (frame bound)) /\
      (forall p d v, assoc p (parameters (tool_of op)) = Some d ->
                     assoc p supplied = Some v -> frame bound p = v) /\
      (forall p d, assoc p (parameters (tool_of op)) = Some (Some d) ->
                   assoc p supplied = None ->
                   frame bound p = d /\
                   (op <> get_playlist_items ->
                    exists m,
                      prepare (tool_of op) (frame bound) = Return m /\
                      (In d (positional m)
                       \/ In (forwarded_name p, d) (keywords m)))).
Proof.
  intros L op tok supplied [Hknown Hreq].
  destruct (bind_parameters_defined _ _ Hreq) as [bound Hb].
  assert (Hk : known_keywords (parameters (tool_of op)) supplied = true).
  { unfold known_keywords. apply forallb_forall. intros [k v] Hkv.
    apply existsb_exists. exists k. split; [|apply String.eqb_refl].
    exact (Hknown k v Hkv). }
  exists bound. unfold invoke. rewrite Hk, Hb. split; [reflexivity|]. split.
  - intros p d v Hp Hs. unfold frame.
    rewrite (bind_parameters_lookup _ _ _ _ _ Hb Hp), Hs. reflexivity.
  - intros p d Hp Hs.
    assert (Hf : frame bound p = d).
    { unfold frame.
      rewrite (bind_parameters_lookup _ _ _ _ _ Hb Hp), Hs. reflexivity. }
    split; [exact Hf|]. intros Hne.
    destruct (forwards_sound (frame bound) (tool_of op) p (forwarded_name p))
      as [m [Hm [_ Hin]]].
    + intros q Hq. rewrite (plain_operations op Hne) in Hq. contradiction.
    + apply forwards_table; [|exact Hne].
      unfold parameter_names. now apply assoc_in_names with (Some d).
    + exists m. split; [exact Hm|]. now rewrite Hf in Hin.
Qed.

Lemma omitted_parameters_take_defaults_witness :
  exists bound,
    invoke (Sample.answering (Return Sample.features)) get_artist_top_tracks
      Sample.token [("artist_id", PyStr "4tZwfgrHOc3mvqYlEYSvVi")]
    = Some (run (Sample.answering (Return Sample.features))
              get_artist_top_tracks Sample.token (frame bound)) /\
    (forall p d v,
        assoc p (parameters (tool_of get_artist_top_tracks)) = Some d ->
        assoc p [("artist_id", PyStr "4tZwfgrHOc3mvqYlEYSvVi")] = Some v ->
        frame bound p = v) /\
    (forall p d,
        assoc p (parameters (tool_of get_artist_top_tracks)) = Some (Some d) ->
        assoc p [("artist_id", PyStr "4tZwfgrHOc3mvqYlEYSvVi")] = None ->
        frame bound p = d /\
        (get_artist_top_tracks <> get_playlist_items ->
         exists m,
           prepare (tool_of get_artist_top_tracks) (frame bound) = Return m /\
           (In d (positional m) \/ In (forwarded_name p, d) (keywords m)))).
Proof.
  apply (omitted_parameters_take_defaults
           (Sample.answering (Return Sample.features)) get_artist_top_tracks
           Sample.token [("artist_id", PyStr "4tZwfgrHOc3mvqYlEYSvVi")]).
  split.
  - intros k v Hin. simpl in Hin. destruct Hin as [Hin|[]].
    inversion Hin; subst. simpl. tauto.
  - intros p Hin. simpl in Hin.
    destruct Hin as [Hin|[Hin|[]]]; inversion Hin; subst.
    eexists. reflexivity.
Defined.

(** The default country of [get_artist_top_tracks] reaches the client. *)
Example get_artist_top_tracks_default_country :
  option_map (fun body => runtime_of (body fresh_runtime))
    (invoke (Sample.answering (Return Sample.features)) get_artist_top_tracks
       Sample.token [("artist_id", PyStr "4tZwfgrHOc3mvqYlEYSvVi")])
  = Some {| module_globals := []; next_object := 1;
            trace := [Constructed {| client_id := 0; auth := Sample.token |};
                      Called {| client_id := 0; auth := Sample.token |}
                        {| method := "artist_top_tracks";
                           positional := [PyStr "4tZwfgrHOc3mvqYlEYSvVi"];
                           keywords := [("country", PyStr "US")] |}] |}.
Proof. reflexivity. Qed.

(** A required parameter left out: the body is not entered. *)
Example get_artist_top_tracks_missing_id :
  invoke (Sample.answering (Return Sample.features)) get_artist_top_tracks
    Sample.token [("country", PyStr "SE")] = None.
Proof. reflexivity. Qed.

(** A keyword that names no parameter: the body is not entered. *)
Example get_artist_top_tracks_unknown_keyword :
  invoke (Sample.answering (Return Sample.features)) get_artist_top_tracks
    Sample.token
    [("artist_id", PyStr "4tZwfgrHOc3mvqYlEYSvVi"); ("market", PyStr "SE")]
  = None.
Proof. reflexivity. Qed.

(** ** Reading an error message back *)

Lemma append_prefix_cases (a b s1 s2 : string) :
  (a ++ s1 = b ++ s2)%string ->
  String.prefix a b = true \/ String.prefix b a = true.
Proof.
  revert b. induction a as [|c a IH]; intros b H.
  - left. destruct b; reflexivity.
  - destruct b as [|c' b].
    + right. reflexivity.
    + simpl in H. inversion H; subst.
      destruct (IH b H2) as [Hp|Hp]; [left|right]; simpl;
        destruct (ascii_dec c' c') as [_|n]; auto; now destruct n.
Qed.

Lemma append_cancel (a s1 s2 : string) :
  (a ++ s1 = a ++ s2)%string -> s1 = s2.
Proof.
  induction a as [|c a IH]; simpl; intros H; [exact H|].
  inversion H. auto.
Qed.

(** No failure prefix begins another. *)
Lemma failure_prefixes_prefix_free (a b : operation) :
  String.prefix (failure_prefix (tool_of a)) (failure_prefix (tool_of b))
  = true ->
  a = b.
Proof.
  intros H.
  assert (C : forallb (fun x => forallb (fun y =>
              implb (String.prefix (failure_prefix (tool_of x))
                                   (failure_prefix (tool_of y)))
                    (operation_beq x y)) all_operations) all_operations = true)
    by (vm_compute; reflexivity).
  rewrite forallb_forall in C. specialize (C a (all_operations_complete a)).
  rewrite forallb_forall in C. specialize (C b (all_operations_complete b)).
  rewrite H in C. now apply operation_beq_eq.
Qed.

(** X8.  An error result tells which tool failed and with what
    description: two failed invocations that return the same result are
    invocations of the same tool whose exceptions have the same text,
    whatever that text is. *)
Theorem error_result_identifies_failure :
  forall (L1 L2 : library) (a b : operation) (token1 token2 : pyval)
         (env1 env2 : arguments) (rt1 rt2 : runtime) (e1 e2 : exn),
    delegated L1 a token1 env1 = Raise e1 ->
    is_Exception e1 = true ->
    delegated L2 b token2 env2 = Raise e2 ->
    is_Exception e2 = true ->
    result_of (run L1 a token1 env1 rt1) = result_of (run L2 b token2 env2 rt2) ->
    a = b /\ exc_str e1 = exc_str e2.
Proof.
  intros L1 L2 a b t1 t2 env1 env2 rt1 rt2 e1 e2 Hd1 He1 Hd2 He2 H.
  rewrite !run_result, Hd1, Hd2, He1, He2 in H.
  unfold error_result, single in H. inversion H as [Hmsg].
  assert (Hab : a = b).
  { destruct (append_prefix_cases _ _ _ _ Hmsg) as [Hp|Hp].
    - now apply failure_prefixes_prefix_free.
    - symmetry. now apply failure_prefixes_prefix_free. }
  subst b. split; [reflexivity|]. now apply append_cancel in Hmsg.
Qed.

Lemma error_result_identifies_failure_witness :
  get_episode = get_episode /\
  exc_str Sample.unauthorized = exc_str Sample.unauthorized.
Proof.
  apply (error_result_identifies_failure
           (Sample.rejecting Sample.unauthorized)
           (Sample.answering (Raise Sample.unauthorized))
           get_episode get_episode Sample.token (PyStr "another-token")
           Sample.no_arguments Sample.no_arguments fresh_runtime
           fresh_runtime Sample.unauthorized Sample.unauthorized);
    reflexivity.
Defined.

(** X9.  An invocation never builds more than one client and never makes
    more than one call, whatever happens: a call that raises is not
    tried again, a constructor that raises leaves the runtime untouched,
    and an argument that cannot be prepared stops the tool before any
    call. *)
Theorem no_retry_no_second_call :
  forall (L : library) (op : operation) (token : pyval) (env : arguments)
         (rt : runtime),
    exists evs,
      trace (runtime_of (run L op token env rt)) = (trace rt ++ evs)%list /\
      length (clients_of evs) <= 1 /\
      length (calls_of evs) <= 1 /\
      (forall m e, Spotify_init L token = None ->
                   prepare (tool_of op) env = Return m ->
                   respond L token m = Raise e ->
                   calls_of evs
                   = [({| client_id := next_object rt; auth := token |}, m)]) /\
      (forall e, Spotify_init L token = Some e ->
                 runtime_of (run L op token env rt) = rt) /\
      (forall e, Spotify_init L token = None ->
                 prepare (tool_of op) env = Raise e ->
                 calls_of evs = []).
Proof.
  intros L op tok env rt. rewrite run_cases. unfold runtime_of.
  destruct (Spotify_init L tok) as [e0|] eqn:Hi.
  - exists []. simpl. rewrite app_nil_r.
    repeat split; auto; intros; discriminate.
  - destruct (prepare (tool_of op) env) as [m|e0] eqn:Hp.
    + exists [Constructed {| client_id := next_object rt; auth := tok |};
              Called {| client_id := next_object rt; auth := tok |} m].
      simpl. rewrite <- app_assoc. simpl.
      repeat split; auto; intros; try discriminate.
      congruence.
    + exists [Constructed {| client_id := next_object rt; auth := tok |}].
      simpl. repeat split; auto; intros; discriminate.
Qed.

(** X10.  An exit signal raised under a tool ([KeyboardInterrupt],
    [SystemExit]) is not turned into an error result: it leaves the tool
    as it was raised. *)
Theorem exit_signal_not_swallowed :
  forall (L : library) (op : operation) (token : pyval) (env : arguments)
         (rt : runtime) (e : exn),
    delegated L op token env = Raise e ->
    is_Exception e = false ->
    result_of (run L op token env rt) = Raise e /\
    forall v, result_of (run L op token env rt) <> Return v.
Proof.
  intros L op tok env rt e Hd He. rewrite run_result, Hd, He.
  split; [reflexivity | discriminate].
Qed.

Lemma exit_signal_not_swallowed_witness :
  result_of (run (Sample.answering
                    (Raise {| exc_kind := ExitSignal;
                              exc_str := "KeyboardInterrupt" |}))
               get_queue Sample.token Sample.no_arguments fresh_runtime)
  = Raise {| exc_kind := ExitSignal; exc_str := "KeyboardInterrupt" |} /\
  forall v,
    result_of (run (Sample.answering
                      (Raise {| exc_kind := ExitSignal;
                                exc_str := "KeyboardInterrupt" |}))
                 get_queue Sample.token Sample.no_arguments fresh_runtime)
    <> Return v.
Proof.
  apply (exit_signal_not_swallowed
           (Sample.answering (Raise {| exc_kind := ExitSignal;
                                       exc_str := "KeyboardInterrupt" |}))
           get_queue Sample.token Sample.no_arguments fresh_runtime
           {| exc_kind := ExitSignal; exc_str := "KeyboardInterrupt" |});
    reflexivity.
Defined.

(** X11.  What a tool does with a token depends on the library's
    behaviour for that token alone: two libraries that treat this token
    alike give the same result and the same runtime, however they differ
    on other credentials. *)
Theorem only_the_supplied_credential_matters :
  forall (L1 L2 : library) (op : operation) (token : pyval)
         (env : arguments) (rt : runtime),
    Spotify_init L1 token = Spotify_init L2 token ->
    (forall m, respond L1 token m = respond L2 token m) ->
    run L1 op token env rt = run L2 op token env rt.
Proof.
  intros L1 L2 op tok env rt Hi Hr.
  rewrite !run_cases, Hi.
  destruct (Spotify_init L2 tok); [reflexivity|].
  destruct (prepare (tool_of op) env) as [m|e]; [|reflexivity].
  now rewrite Hr.
Qed.

Lemma only_the_supplied_credential_matters_witness :
  run (Sample.answering (Return Sample.features)) get_current_user
    Sample.token Sample.no_arguments fresh_runtime
  = run (serving_only "BQDx-user-token" (Return Sample.features))
      get_current_user Sample.token Sample.no_arguments fresh_runtime.
Proof.
  apply (only_the_supplied_credential_matters
           (Sample.answering (Return Sample.features))
           (serving_only "BQDx-user-token" (Return Sample.features))
           get_current_user Sample.token Sample.no_arguments fresh_runtime).
  - reflexivity.
  - intros m. reflexivity.
Defined.

(** ** Invocations in a row *)

Lemma constructed_in_clients (c : client) (evs : list event) :
  In (Constructed c) evs <-> In c (clients_of evs).
Proof.
  induction evs as [|[c0|c0 m0] evs IH]; simpl.
  - tauto.
  - rewrite <- IH. split; intros [H|H]; auto; left; congruence.
  - rewrite <- IH. split; [intros [H|H]; [discriminate | exact H] | auto].
Qed.

Lemma NoDup_snoc_fresh (ids : list nat) (n : nat) :
  NoDup ids -> (forall i, In i ids -> i < n) -> NoDup (ids ++ [n]).
Proof.
  induction ids as [|i ids IH]; simpl; intros Hnd Hlt.
  - constructor; [tauto | constructor].
  - inversion Hnd; subst. constructor.
    + intros Hin. apply in_app_or in Hin as [Hin|[Hin|[]]]; [tauto|].
      specialize (Hlt i (or_introl eq_refl)). lia.
    + apply IH; auto.
Qed.

Lemma built_before_use_app (built : list client) (a b : list event) :
  built_before_use built (a ++ b) <->
  built_before_use built a
  /\ built_before_use (rev (clients_of a) ++ built) b.
Proof.
  revert built. induction a as [|[c|c m] a IH]; intros built; simpl.
  - tauto.
  - rewrite IH, <- app_assoc. simpl. tauto.
  - rewrite IH. tauto.
Qed.

(** A call's client is among the clients built. *)
Lemma built_before_use_calls (built : list client) (evs : list event)
    (c : client) (m : call) :
  built_before_use built evs ->
  In (c, m) (calls_of evs) ->
  In c built \/ In c (clients_of evs).
Proof.
  revert built. induction evs as [|[c0|c0 m0] evs IH]; intros built; simpl.
  - tauto.
  - intros Hb Hin. destruct (IH _ Hb Hin) as [[->|H]|H]; auto.
  - intros [Hc0 Hb] [Hin|Hin].
    + inversion Hin; subst. now left.
    + now apply IH.
Qed.

(** One invocation keeps the discipline of the trace. *)
Lemma run_keeps_clients_used_once (L : library) (op : operation)
    (token : pyval) (env : arguments) (rt : runtime) :
  allocator_ahead rt ->
  clients_used_once (trace rt) ->
  allocator_ahead (runtime_of (run L op token env rt)) /\
  clients_used_once (trace (runtime_of (run L op token env rt))) /\
  length (calls_of (trace (runtime_of (run L op token env rt))))
  <= S (length (calls_of (trace rt))).
Proof.
  intros Ha [Hc [Hk Hb]].
  assert (Hids : forall i, In i (map client_id (clients_of (trace rt))) ->
                           i < next_object rt).
  { intros i Hi. apply in_map_iff in Hi as [c [<- Hc']].
    apply Ha. now apply constructed_in_clients. }
  assert (Hcalls : forall i,
             In i (map (fun cm => client_id (fst cm)) (calls_of (trace rt))) ->
             i < next_object rt).
  { intros i Hi. apply in_map_iff in Hi as [[c m] [<- Hcm]].
    apply Hids. apply in_map.
    destruct (built_before_use_calls [] _ c m Hb Hcm) as [[]|H]. exact H. }
  assert (Hbuilt : forall c0,
             In (Constructed c0)
                (trace rt ++ [Constructed {| client_id := next_object rt;
                                             auth := token |}]) ->
             client_id c0 < S (next_object rt)).
  { intros c0 H0. apply in_app_or in H0 as [H0|[H0|[]]].
    - apply Ha in H0. lia.
    - inversion H0; subst. simpl. lia. }
  rewrite run_cases. unfold runtime_of.
  destruct (Spotify_init L token) as [e0|].
  - simpl. repeat split; auto.
  - destruct (prepare (tool_of op) env) as [m|e0]; unfold log; simpl.
    + split; [|split; [split; [|split]|]].
      * intros c0 H0. simpl in *.
        rewrite <- app_assoc in H0. simpl in H0.
        apply in_app_or in H0 as [H0|[H0|[H0|[]]]]; try discriminate.
        -- apply Ha in H0. lia.
        -- inversion H0; subst. simpl. lia.
      * rewrite !clients_of_app. simpl. rewrite app_nil_r, map_app. simpl.
        now apply NoDup_snoc_fresh.
      * rewrite !calls_of_app. simpl. rewrite app_nil_r, map_app. simpl.
        now apply NoDup_snoc_fresh.
      * apply built_before_use_app. split.
        -- apply built_before_use_app. split; [exact Hb | exact I].
        -- simpl. split; [|exact I].
           rewrite clients_of_app, rev_app_distr. simpl. now left.
      * rewrite !calls_of_app. simpl. rewrite app_nil_r, length_app.
        simpl. lia.
    + split; [exact Hbuilt|]. split; [split; [|split]|].
      * rewrite clients_of_app, map_app. simpl.
        now apply NoDup_snoc_fresh.
      * now rewrite calls_of_app, app_nil_r.
      * apply built_before_use_app. split; [exact Hb | exact I].
      * rewrite calls_of_app, app_nil_r. lia.
Qed.

(** A call that comes before the construction of its client breaks the
    discipline. *)
Example call_before_construction_refused :
  ~ clients_used_once
      [Called {| client_id := 0; auth := Sample.token |}
         {| method := "queue"; positional := []; keywords := [] |};
       Constructed {| client_id := 0; auth := Sample.token |}].
Proof. intros [_ [_ [[] _]]]. Qed.

(** X12.  However many invocations the host runs one after the other,
    with whatever tools, tokens, arguments and outcomes, each gets its
    result, no client is ever built twice or used for two calls, every
    call in the trace went through a client built before it, there are
    at most as many new calls as invocations, and the module's globals
    end as they started. *)
Theorem clients_never_reused :
  forall (L : library) (reqs : list request) (rt : runtime),
    allocator_ahead rt ->
    clients_used_once (trace rt) ->
    length (fst (serve L reqs rt)) = length reqs /\
    allocator_ahead (snd (serve L reqs rt)) /\
    clients_used_once (trace (snd (serve L reqs rt))) /\
    length (calls_of (trace (snd (serve L reqs rt))))
    <= length (calls_of (trace rt)) + length reqs /\
    module_globals (snd (serve L reqs rt)) = module_globals rt.
Proof.
  intros L reqs. induction reqs as [|[[op tok] env] reqs IH];
    intros rt Ha Hu; simpl.
  - repeat split; auto; try apply Hu. lia.
  - destruct (run_keeps_clients_used_once L op tok env rt Ha Hu)
      as [Ha1 [Hu1 Hlen1]].
    pose proof (run_globals L op tok env rt) as Hg1.
    unfold runtime_of in *.
    destruct (run L op tok env rt) as [r rt1]. simpl in *.
    specialize (IH rt1 Ha1 Hu1).
    destruct (serve L reqs rt1) as [rs rt2]. simpl in *.
    destruct IH as [Hl [Ha2 [Hu2 [Hlen2 Hg2]]]].
    repeat split; try apply Hu2; auto; try lia. congruence.
Qed.

Lemma clients_never_reused_witness :
  length (fst (serve (serving_only "BQDx-user-token" (Return Sample.features))
                 sample_session fresh_runtime))
  = length sample_session /\
  allocator_ahead
    (snd (serve (serving_only "BQDx-user-token" (Return Sample.features))
            sample_session fresh_runtime)) /\
  clients_used_once
    (trace (snd (serve (serving_only "BQDx-user-token"
                          (Return Sample.features))
                   sample_session fresh_runtime))) /\
  length (calls_of
            (trace (snd (serve (serving_only "BQDx-user-token"
                                  (Return Sample.features))
                           sample_session fresh_runtime))))
  <= length (calls_of (trace fresh_runtime)) + length sample_session /\
  module_globals
    (snd (serve (serving_only "BQDx-user-token" (Return Sample.features))
            sample_session fresh_runtime))
  = module_globals fresh_runtime.
Proof.
  apply (clients_never_reused
           (serving_only "BQDx-user-token" (Return Sample.features))
           sample_session fresh_runtime).
  - intros c H. simpl in H. contradiction.
  - simpl. repeat split; constructor.
Defined.

(** The session of the example: a call answered, a call never made, a
    call refused. *)
Example sample_session_served :
  serve (serving_only "BQDx-user-token" (Return Sample.features))
    sample_session fresh_runtime
  = ([Return Sample.features;
      Return (PyDict [("error", PyStr
        "Failed to get playlist items: 'int' object has no attribute 'split'")]);
      Return (PyDict [("error", PyStr
        "Failed to get devices: http status: 401, code: -1 - The access token expired")])],
     {| module_globals := []; next_object := 3;
        trace :=
          [Constructed {| client_id := 0; auth := Sample.token |};
           Called {| client_id := 0; auth := Sample.token |}
             {| method := "queue"; positional := []; keywords := [] |};
           Constructed {| client_id := 1; auth := Sample.token |};
           Constructed {| client_id := 2; auth := PyStr "another-token" |};
           Called {| client_id := 2; auth := PyStr "another-token" |}
             {| method := "devices"; positional := []; keywords := [] |}] |}).
Proof. reflexivity. Qed.

(** ** What a caller can rely on *)

Lemma rewrap_keys_not_error (op : operation) (key : string) :
  In (op, key) rewrap_operations -> key <> "error".
Proof.
  simpl. intros H.
  repeat (destruct H as [H|H]; [inversion H; subst; discriminate|]).
  contradiction.
Qed.

(** X13.  The eight tools that return the response under a key always
    return a one-entry mapping, and its key is ["error"] exactly when the
    constructor or the call failed; otherwise it is the tool's own key.
    For these tools the error field is a reliable sign of failure,
    whatever the response contains. *)
Theorem rewrap_error_field_means_failure :
  forall (L : library) (op : operation) (key : string) (token : pyval)
         (env : arguments) (rt : runtime),
    In (op, key) rewrap_operations ->
    catchable (delegated L op token env) = true ->
    exists k x,
      result_of (run L op token env rt) = Return (PyDict [(k, x)]) /\
      (k = "error" <-> exists e, delegated L op token env = Raise e) /\
      (k = "error" \/ k = key).
Proof.
  intros L op key tok env rt Hin Hc. rewrite run_result.
  pose proof (rewrap_keys_not_error op key Hin) as Hne.
  apply rewrap_operations_spec in Hin.
  destruct (delegated L op tok env) as [r|e]; simpl in Hc.
  - exists key, r. rewrite Hin. split; [reflexivity|]. split; [|now right].
    split; [intros H; now destruct Hne | intros [e He]; discriminate].
  - rewrite Hc. eexists. eexists. split; [reflexivity|].
    split; [|now left]. split; eauto.
Qed.

Lemma rewrap_error_field_means_failure_witness :
  exists k x,
    result_of (run (Sample.answering
                      (Return (PyDict [("error", PyStr "from the service")])))
                 playlist_is_following Sample.token Sample.no_arguments
                 fresh_runtime)
    = Return (PyDict [(k, x)]) /\
    (k = "error" <->
     exists e,
       delegated (Sample.answering
                    (Return (PyDict [("error", PyStr "from the service")])))
         playlist_is_following Sample.token Sample.no_arguments = Raise e) /\
    (k = "error" \/ k = "following").
Proof.
  apply (rewrap_error_field_means_failure
           (Sample.answering
              (Return (PyDict [("error", PyStr "from the service")])))
           playlist_is_following "following" Sample.token Sample.no_arguments
           fresh_runtime).
  - simpl. tauto.
  - reflexivity.
Defined.

(** X14.  The twelve tools with a placeholder or a rewrap never return a
    falsy value: whether the call answers with data, with nothing, or
    fails, the caller gets something that tests true, so [None], an empty
    mapping and an empty list never come out of them. *)
Theorem placeholder_and_rewrap_results_truthy :
  forall (L : library) (op : operation) (key : string) (token : pyval)
         (env : arguments) (rt : runtime),
    In (op, key) placeholder_operations \/ In (op, key) rewrap_operations ->
    catchable (delegated L op token env) = true ->
    exists v,
      result_of (run L op token env rt) = Return v /\
      truthy v = true /\
      v <> PyNone /\ v <> PyDict [] /\ v <> PyList [].
Proof.
  intros L op key tok env rt Hin Hc. rewrite run_result.
  assert (Hfalsy : forall v, truthy v = true ->
                             v <> PyNone /\ v <> PyDict [] /\ v <> PyList []).
  { intros v Hv. repeat split; intros ->; discriminate. }
  destruct (delegated L op tok env) as [r|e]; simpl in Hc.
  - eexists. split; [reflexivity|].
    assert (Ht : truthy (returned (returns (tool_of op)) r) = true).
    { destruct Hin as [Hin|Hin].
      - apply placeholder_operations_spec in Hin. rewrite Hin. simpl.
        destruct (truthy r) eqn:Tr; [exact Tr | reflexivity].
      - apply rewrap_operations_spec in Hin. rewrite Hin. reflexivity. }
    split; [exact Ht | now apply Hfalsy].
  - rewrite Hc. eexists. split; [reflexivity|].
    split; [reflexivity | now apply Hfalsy].
Qed.

Lemma placeholder_and_rewrap_results_truthy_witness :
  exists v,
    result_of (run (Sample.answering (Return (PyList []))) get_audio_features
                 Sample.token
                 (Sample.with_argument "tracks" (PyList [PyStr "unknown"]))
                 fresh_runtime) = Return v /\
    truthy v = true /\
    v <> PyNone /\ v <> PyDict [] /\ v <> PyList [].
Proof.
  apply (placeholder_and_rewrap_results_truthy
           (Sample.answering (Return (PyList []))) get_audio_features
           "audio_features" Sample.token
           (Sample.with_argument "tracks" (PyList [PyStr "unknown"]))
           fresh_runtime).
  - left. simpl. tauto.
  - reflexivity.
Defined.
